(** * api-wrapper: the response envelope builder, its configuration store
      and its framework adapters

    A shallow embedding of [src/index.ts] and [src/types.ts].  JavaScript
    values are modelled with their run-time semantics: objects live in a
    store and are passed by reference, [||] and [&&] select an operand by
    truthiness, a missing argument is [undefined], a property read on
    [undefined] throws a [TypeError]. *)

From Stdlib Require Import Floats.
From stdpp Require Import gmap strings list fin_maps.

Open Scope string_scope.
Open Scope list_scope.

(** ** JavaScript values, objects and the store *)

Module JS.

(** A reference to an object of the store. *)
Definition loc := nat.

(** [number] is an IEEE 754 binary64, as in the language.

    The function values that occur are listed by [closure]: the arrow
    functions of [middleware] close over the wrapper ([this]) and, for the
    two response methods, over [res]; the two functions of
    [decorateFastify] are plain [function]s whose [this] is bound at the
    call; [Host] stands for a function supplied by the web framework
    (Express's [next]). *)
Inductive value :=
| VUndefined
| VNull
| VBool (b : bool)
| VNumber (n : float)
| VString (s : string)
| VObject (l : loc)
| VFunction (f : closure)
with closure :=
| ExpressMiddleware (this : loc)
| ExpressApiSuccess (this : loc) (res : value)
| ExpressApiError (this : loc) (res : value)
| FastifyApiSuccess
| FastifyApiError
| Host (name : string).

(** ToBoolean: [undefined], [null], [false], [+0], [-0], [NaN] and the empty
    string are falsy, everything else is truthy. *)
Definition truthy (v : value) : bool :=
  match v with
  | VUndefined | VNull => false
  | VBool b => b
  | VNumber n => negb (PrimFloat.eqb n 0 || PrimFloat.is_nan n)
  | VString s => negb (String.eqb s "")
  | VObject _ | VFunction _ => true
  end.

(** [a && b] on evaluated operands ([b] is a variable where the code uses
    it, so evaluating it early changes nothing). *)
Definition and (a b : value) : value := if truthy a then b else a.

(** A default parameter [x = d] takes [d] exactly when the argument is
    [undefined]. *)
Definition default_param (d x : value) : value :=
  match x with VUndefined => d | _ => x end.

(** The i-th positional argument of a call; missing ones are [undefined]. *)
Definition arg (i : nat) (args : list value) : value :=
  default VUndefined (args !! i).

(** An object: the class it was created by and its own properties.  Object
    literals have class [ClsObject]; [new ResponseWrapper(..)] gives
    [ClsResponseWrapper], whose prototype carries the methods. *)
Inductive class := ClsObject | ClsResponseWrapper.

Record object := { cls : class; props : gmap string value }.

Definition plain (ps : gmap string value) : object :=
  {| cls := ClsObject; props := ps |}.

(** A call into the web framework, recorded in order: a method of a
    framework object ([res.status(404)]) or a framework function
    ([next()]). *)
Inductive event :=
| CallMethod (recv : value) (method : string) (args : list value)
| CallFunction (name : string) (args : list value).

(** The store and the trace of framework calls. *)
Record state := { heap : list object; trace : list event }.

Inductive exn := TypeError (msg : string).

(** [Stuck] marks what the model does not cover: a reference that is not
    in the store (the language has none), and the few language features
    left out, each named where it is left out. *)
Inductive outcome (A : Type) :=
| Return (a : A)
| Throw (e : exn)
| Stuck.
Arguments Return {A} a.
Arguments Throw {A} e.
Arguments Stuck {A}.

Definition M (A : Type) : Type := state → outcome A * state.

Definition ret {A} (a : A) : M A := λ s, (Return a, s).

Definition bind {A B} (m : M A) (k : A → M B) : M B :=
  λ s, match m s with
       | (Return a, s') => k a s'
       | (Throw e, s') => (Throw e, s')
       | (Stuck, s') => (Stuck, s')
       end.

Definition throw {A} (e : exn) : M A := λ s, (Throw e, s).
Definition stuck {A} : M A := λ s, (Stuck, s).

#[global] Instance M_ret : MRet M := @ret.
#[global] Instance M_bind : MBind M := λ A B k m, bind m k.

(** An object literal or [new]: a fresh reference. *)
Definition alloc (o : object) : M loc :=
  λ s, (Return (length (heap s)),
        {| heap := heap s ++ [o]; trace := trace s |}).

Definition get_object (l : loc) : M object :=
  λ s, match heap s !! l with
       | Some o => (Return o, s)
       | None => (Stuck, s)
       end.

(** [v.k]: reading a property of [undefined] or [null] throws; an absent
    property reads as [undefined].  The methods of [ResponseWrapper] are
    called through [call_wrapper_method] below, not read as values; the
    properties of primitive values and of functions are not among the names
    this code reads, so they read as [undefined]. *)
Definition get_prop (v : value) (k : string) : M value :=
  match v with
  | VUndefined => throw (TypeError "Cannot read properties of undefined")
  | VNull => throw (TypeError "Cannot read properties of null")
  | VObject l => o ← get_object l; mret (default VUndefined (props o !! k))
  | _ => mret VUndefined
  end.

Definition put_object (l : loc) (o : object) : M unit :=
  λ s, (Return (), {| heap := <[l := o]> (heap s); trace := trace s |}).

(** [v.k = x] (strict mode, as every module is): creating a property on a
    primitive throws.  Properties of function objects are left out. *)
Definition set_prop (v : value) (k : string) (x : value) : M unit :=
  match v with
  | VObject l =>
      o ← get_object l;
      put_object l {| cls := cls o; props := <[k := x]> (props o) |}
  | VFunction _ => stuck
  | VUndefined | VNull => throw (TypeError "Cannot set properties of undefined")
  | _ => throw (TypeError "Cannot create property")
  end.

(** [a || b], the right operand evaluated only when the left one is
    falsy. *)
Definition or_else (a : value) (b : M value) : M value :=
  if truthy a then mret a else b.

(** The own enumerable properties an object spread [...v] copies.
    [undefined], [null], booleans, numbers and functions contribute none.
    Spreading a string (which copies its characters under index keys) is
    left out: [ResponseConfig] is an object type. *)
Definition own_props (v : value) : M (gmap string value) :=
  match v with
  | VObject l => o ← get_object l; mret (props o)
  | VString _ => stuck
  | _ => mret ∅
  end.

Definition record (e : event) : M unit :=
  λ s, (Return (), {| heap := heap s; trace := trace s ++ [e] |}).

(** A call into the framework is recorded; [res.status], [res.json],
    [reply.code] and [reply.send] return their receiver, which is what
    lets the code chain them. *)
Definition host_method (recv : value) (method : string) (args : list value) : M value :=
  record (CallMethod recv method args);; mret recv.

(** Calling a function value received from the framework. *)
Definition host_function (f : value) (args : list value) : M value :=
  match f with
  | VFunction (Host name) => record (CallFunction name args);; mret VUndefined
  | VFunction _ => stuck
  | _ => throw (TypeError "is not a function")
  end.

End JS.

Import JS.

(** ** The part of Fastify that [decorateFastify] relies on

    Fastify keeps two separate tables: [decorate(name, v)] adds a property
    to the server instance, [decorateReply(name, v)] adds one to the
    prototype of the Reply objects.  A reply sees the properties of the
    Reply prototype, not those of the server instance.  Decorations are
    closed before the first request, so a reply is modelled as created with
    the properties the prototype then has. *)

Module Fastify.

Record instance := { server : loc; reply_prototype : loc }.

Definition create : M instance :=
  s ← alloc (plain ∅);
  r ← alloc (plain ∅);
  mret {| server := s; reply_prototype := r |}.

Definition decorate (fastify : instance) (name : string) (v : value) : M unit :=
  set_prop (VObject (server fastify)) name v.

Definition decorateReply (fastify : instance) (name : string) (v : value) : M unit :=
  set_prop (VObject (reply_prototype fastify)) name v.

Definition new_reply (fastify : instance) : M value :=
  ps ← own_props (VObject (reply_prototype fastify));
  l ← alloc (plain ps);
  mret (VObject l).

End Fastify.

(** ** The class [ResponseWrapper] *)

Module ResponseWrapper.

(** The three defaults of the constructor. *)
Definition defaults : gmap string value :=
  {[ "defaultSuccessMessage" := VString "Operation completed successfully";
     "defaultErrorMessage" := VString "An error occurred";
     "includeErrorDetails" := VBool false ]}.

(** [constructor(config: ResponseConfig = {})]:
    [this.config = { ...defaults, ...config }]. *)
Definition new (config : value) : M loc :=
  this ← alloc {| cls := ClsResponseWrapper; props := ∅ |};
  config ← match config with
           | VUndefined => l ← alloc (plain ∅); mret (VObject l)
           | _ => mret config
           end;
  given ← own_props config;
  c ← alloc (plain (given ∪ defaults));
  set_prop (VObject this) "config" (VObject c);;
  mret this.

(** [success(data, message?)] *)
Definition success (this : loc) (data message : value) : M value :=
  msg ← or_else message
          (config ← get_prop (VObject this) "config";
           get_prop config "defaultSuccessMessage");
  r ← alloc (plain {[ "success" := VBool true; "message" := msg; "data" := data ]});
  mret (VObject r).

(** [error(message?, code = 500, details?)].  The literal [{ code }] is
    allocated before the envelope it is a property of; [errorResponse.error]
    then reads it back for the assignment of [details]. *)
Definition error (this : loc) (message code details : value) : M value :=
  let code := default_param (VNumber 500) code in
  msg ← or_else message
          (config ← get_prop (VObject this) "config";
           get_prop config "defaultErrorMessage");
  e ← alloc (plain {[ "code" := code ]});
  errorResponse ← alloc (plain {[ "success" := VBool false; "message" := msg;
                                  "error" := VObject e ]});
  config ← get_prop (VObject this) "config";
  include ← get_prop config "includeErrorDetails";
  (if truthy (and include details) then
     err ← get_prop (VObject errorResponse) "error";
     set_prop err "details" details
   else mret ());;
  mret (VObject errorResponse).

(** [configure(newConfig)]: [this.config = { ...this.config, ...newConfig }] *)
Definition configure (this : loc) (newConfig : value) : M unit :=
  config ← get_prop (VObject this) "config";
  old ← own_props config;
  new ← own_props newConfig;
  c ← alloc (plain (new ∪ old));
  set_prop (VObject this) "config" (VObject c).

(** [getConfig()]: [return { ...this.config }] *)
Definition getConfig (this : loc) : M value :=
  config ← get_prop (VObject this) "config";
  ps ← own_props config;
  l ← alloc (plain ps);
  mret (VObject l).

(** [middleware()] returns the arrow function, closed over [this]. *)
Definition middleware (this : loc) : M value :=
  mret (VFunction (ExpressMiddleware this)).

(** The body of that arrow function, [(req, res, next) => { .. }]. *)
Definition middleware_body (this : loc) (req res next : value) : M value :=
  set_prop res "apiSuccess" (VFunction (ExpressApiSuccess this res));;
  set_prop res "apiError" (VFunction (ExpressApiError this res));;
  host_function next [];;
  mret VUndefined.

(** [res.apiSuccess = (data, message?) => { res.json(this.success(data, message)) }] *)
Definition express_apiSuccess (this : loc) (res : value) (data message : value) : M value :=
  body ← success this data message;
  host_method res "json" [body];;
  mret VUndefined.

(** [res.apiError = (message?, code = 500, details?) =>
      { res.status(code).json(this.error(message, code, details)) }] *)
Definition express_apiError (this : loc) (res : value) (message code details : value) : M value :=
  let code := default_param (VNumber 500) code in
  r ← host_method res "status" [code];
  body ← error this message code details;
  host_method r "json" [body];;
  mret VUndefined.

(** [v.name(..)] where the code expects [v] to be a wrapper: reading the
    method off [undefined] or [null] throws, an object that has no such
    method throws at the call.  A foreign object carrying a function under
    that name is left out. *)
Definition call_wrapper_method (v : value) (name : string) (method : loc → M value) : M value :=
  match v with
  | VUndefined => throw (TypeError "Cannot read properties of undefined")
  | VNull => throw (TypeError "Cannot read properties of null")
  | VObject l =>
      o ← get_object l;
      match cls o, props o !! name with
      | ClsResponseWrapper, _ => method l
      | ClsObject, Some (VFunction _) => stuck
      | ClsObject, _ => throw (TypeError "is not a function")
      end
  | _ => throw (TypeError "is not a function")
  end.

(** [function (this, data, message?) {
       const response = this.responseWrapper.success(data, message);
       this.send(response); }] *)
Definition fastify_apiSuccess (this : value) (data message : value) : M value :=
  w ← get_prop this "responseWrapper";
  response ← call_wrapper_method w "success" (λ w, success w data message);
  host_method this "send" [response];;
  mret VUndefined.

(** [function (this, message?, code = 500, details?) {
       const response = this.responseWrapper.error(message, code, details);
       this.code(code).send(response); }] *)
Definition fastify_apiError (this : value) (message code details : value) : M value :=
  let code := default_param (VNumber 500) code in
  w ← get_prop this "responseWrapper";
  response ← call_wrapper_method w "error" (λ w, error w message code details);
  r ← host_method this "code" [code];
  host_method r "send" [response];;
  mret VUndefined.

(** [decorateFastify(fastify)] *)
Definition decorateFastify (this : loc) (fastify : Fastify.instance) : M unit :=
  Fastify.decorateReply fastify "apiSuccess" (VFunction FastifyApiSuccess);;
  Fastify.decorateReply fastify "apiError" (VFunction FastifyApiError);;
  Fastify.decorate fastify "responseWrapper" (VObject this).

(** Calling one of the library's function values with a receiver and
    positional arguments. *)
Definition apply (f : closure) (this : value) (args : list value) : M value :=
  match f with
  | ExpressMiddleware w => middleware_body w (arg 0 args) (arg 1 args) (arg 2 args)
  | ExpressApiSuccess w res => express_apiSuccess w res (arg 0 args) (arg 1 args)
  | ExpressApiError w res => express_apiError w res (arg 0 args) (arg 1 args) (arg 2 args)
  | FastifyApiSuccess => fastify_apiSuccess this (arg 0 args) (arg 1 args)
  | FastifyApiError => fastify_apiError this (arg 0 args) (arg 1 args) (arg 2 args)
  | Host name => host_function (VFunction (Host name)) args
  end.

(** [recv.name(args)] as a route handler writes it: read the property,
    call it with [recv] as [this]. *)
Definition call_method (recv : value) (name : string) (args : list value) : M value :=
  f ← get_prop recv name;
  match f with
  | VFunction c => apply c recv args
  | _ => throw (TypeError "is not a function")
  end.

End ResponseWrapper.

Import ResponseWrapper.

(** ** Observing states: the configuration held, the envelope shapes of
       [types.ts] *)

(** The configuration object a wrapper currently holds: the own properties
    of the object its [config] property refers to. *)
Definition config_of (s : state) (this : loc) : option (gmap string value) :=
  o ← heap s !! this;
  match props o !! "config" with
  | Some (VObject c) => props <$> heap s !! c
  | _ => None
  end.

(** Reading a property [k] off a set of properties. *)
Definition field (ps : gmap string value) (k : string) : value :=
  default VUndefined (ps !! k).

(** The property [k] of the object [v] refers to, [None] when [v] has no
    such property. *)
Definition field_of (s : state) (v : value) (k : string) : option value :=
  match v with
  | VObject l => o ← heap s !! l; props o !! k
  | _ => None
  end.

(** The value found at [r.error.k]. *)
Definition error_field_of (s : state) (r : value) (k : string) : option value :=
  e ← field_of s r "error"; field_of s e k.

(** The body of an error envelope's [error] property. *)
Definition error_body (include code details : value) : gmap string value :=
  if truthy (and include details)
  then <["details" := details]> {[ "code" := code ]}
  else {[ "code" := code ]}.

(** Which details, if any, [error] attaches. *)
Definition attached_details (include details : value) : option value :=
  if truthy (and include details) then Some details else None.

(** [r] refers to exactly [{ success: true, message, data }]. *)
Definition is_success_envelope (s : state) (r message data : value) : Prop :=
  ∃ l, r = VObject l ∧
       heap s !! l = Some (plain {[ "success" := VBool true;
                                    "message" := message;
                                    "data" := data ]}).

(** [r] refers to exactly [{ success: false, message, error: { code } }],
    or, with [Some d], to
    [{ success: false, message, error: { code, details: d } }]. *)
Definition is_error_envelope (s : state) (r message code : value)
    (details : option value) : Prop :=
  ∃ l e, r = VObject l ∧
         heap s !! l = Some (plain {[ "success" := VBool false;
                                      "message" := message;
                                      "error" := VObject e ]}) ∧
         heap s !! e = Some (plain match details with
                                   | Some d => {[ "code" := code; "details" := d ]}
                                   | None => {[ "code" := code ]}
                                   end).

(** ** States and requests used as concrete inputs *)

(** The state a program starts in, and the one in which the module has
    created its default instance, [new ResponseWrapper()], at reference 0. *)
Definition empty_state : state := {| heap := []; trace := [] |}.
Definition module_state : state := (new VUndefined empty_state).2.

(** The default instance after [configure({ includeErrorDetails: true })];
    the literal is object 3, the merged configuration object 4. *)
Definition verbose_state : state :=
  ((p ← alloc (plain {[ "includeErrorDetails" := VBool true ]});
    configure 0 (VObject p)) module_state).2.

Definition verbose_config : gmap string value :=
  {[ "defaultSuccessMessage" := VString "Operation completed successfully";
     "defaultErrorMessage" := VString "An error occurred";
     "includeErrorDetails" := VBool true ]}.

(** A state with an object literal added, which becomes the object
    [length (heap s)]; [with_a1] adds [{ a: 1 }]. *)
Definition with_literal (ps : gmap string value) (s : state) : state :=
  (alloc (plain ps) s).2.

Definition with_a1 (s : state) : state :=
  with_literal {[ "a" := VNumber 1 ]} s.

(** A request served by Express with the middleware in use: the default
    instance is made, [app.use(middleware())] runs the arrow function on
    the request's [res] (a fresh object), then the route handler calls
    [res.<method>(args)]. *)
Definition express_request (method : string) (args : list value) : M value :=
  w ← new VUndefined;
  mw ← middleware w;
  req ← alloc (plain ∅);
  res ← alloc (plain ∅);
  match mw with
  | VFunction f => apply f VUndefined [VObject req; VObject res; VFunction (Host "next")]
  | _ => throw (TypeError "is not a function")
  end;;
  call_method (VObject res) method args.

(** A request served by Fastify after [wrapper.decorateFastify(fastify)],
    as the README sets it up: the route handler calls
    [reply.<method>(args)] on the request's reply. *)
Definition fastify_request (method : string) (args : list value) : M value :=
  w ← new VUndefined;
  fastify ← Fastify.create;
  decorateFastify w fastify;;
  reply ← Fastify.new_reply fastify;
  call_method reply method args.

(** ** Well-formed wrappers and the types of [types.ts] *)

(** What the constructor leaves at [this]: an object of class
    [ResponseWrapper] whose [config] property refers to an object
    literal. *)
Definition is_wrapper (s : state) (this : loc) : bool :=
  match heap s !! this with
  | Some {| cls := ClsResponseWrapper; props := ps |} =>
      match ps !! "config" with
      | Some (VObject c) =>
          match heap s !! c with
          | Some {| cls := ClsObject |} => true
          | _ => false
          end
      | _ => false
      end
  | _ => false
  end.

Definition is_string (v : value) : bool :=
  match v with VString _ => true | _ => false end.

Definition is_boolean (v : value) : bool :=
  match v with VBool _ => true | _ => false end.

Definition is_number (v : value) : bool :=
  match v with VNumber _ => true | _ => false end.

(** An optional parameter [x?: T]: [undefined] or a [T]. *)
Definition is_optional (is_T : value → bool) (v : value) : bool :=
  match v with VUndefined => true | _ => is_T v end.

(** A configuration in which the three properties hold values of the types
    [ResponseConfig] declares, none of them [undefined]. *)
Definition typed_config (cfg : gmap string value) : bool :=
  is_string (field cfg "defaultSuccessMessage")
  && is_string (field cfg "defaultErrorMessage")
  && is_boolean (field cfg "includeErrorDetails").

(** An argument of the constructor or of [configure] in which each of the
    three properties is either absent or holds a value of its declared
    type (an explicit [undefined] is excluded). *)
Definition typed_partial (p : gmap string value) : bool :=
  from_option is_string true (p !! "defaultSuccessMessage")
  && from_option is_string true (p !! "defaultErrorMessage")
  && from_option is_boolean true (p !! "includeErrorDetails").

(** The default instance and a second one,
    [new ResponseWrapper({ includeErrorDetails: true })]: the literal is
    object 3, the second wrapper object 4, its configuration object 5. *)
Definition two_instances : state :=
  ((p ← alloc (plain {[ "includeErrorDetails" := VBool true ]});
    new (VObject p)) module_state).2.

(** The default instance and an Express [res] (object 3) on which the
    middleware has run. *)
Definition express_state : state :=
  ((res ← alloc (plain ∅);
    middleware_body 0 VUndefined (VObject res) (VFunction (Host "next")))
     module_state).2.

(** The default instance and a reply (object 3) that does carry the
    wrapper as [responseWrapper]. *)
Definition reply_with_wrapper : state :=
  with_literal {[ "responseWrapper" := VObject 0 ]} module_state.

(** The default instance and a Fastify instance: server object 3, Reply
    prototype object 4. *)
Definition fastify_state : state := (Fastify.create module_state).2.

(** [s'] is [s] with [n] new objects: every object of [s] is unchanged and
    no framework call was added. *)
Definition extends_store (n : nat) (s s' : state) : Prop :=
  length (heap s') = length (heap s) + n
  ∧ (∀ l o, heap s !! l = Some o → heap s' !! l = Some o)
  ∧ trace s' = trace s.

(** ** Running the primitives *)

#[local] Arguments get_prop : simpl never.
#[local] Arguments set_prop : simpl never.
#[local] Arguments own_props : simpl never.

Section Run.

Context {A B : Type}.

Lemma bind_run (m : M A) (k : A → M B) s :
  (m ≫= k) s = match m s with
               | (Return a, s') => k a s'
               | (Throw e, s') => (Throw e, s')
               | (Stuck, s') => (Stuck, s')
               end.
Proof. reflexivity. Qed.

Lemma bind_Return (m : M A) (k : A → M B) s a s' :
  m s = (Return a, s') → (m ≫= k) s = k a s'.
Proof. intros H. rewrite bind_run, H. reflexivity. Qed.

Lemma bind_Throw (m : M A) (k : A → M B) s e s' :
  m s = (Throw e, s') → (m ≫= k) s = (Throw e, s').
Proof. intros H. rewrite bind_run, H. reflexivity. Qed.

End Run.

Lemma get_prop_object s l o k :
  heap s !! l = Some o →
  get_prop (VObject l) k s = (Return (field (props o) k), s).
Proof.
  intros H. unfold get_prop, get_object. rewrite bind_run, H. reflexivity.
Qed.

Lemma own_props_object s l o :
  heap s !! l = Some o → own_props (VObject l) s = (Return (props o), s).
Proof.
  intros H. unfold own_props, get_object. rewrite bind_run, H. reflexivity.
Qed.

Lemma set_prop_object s l o k x :
  heap s !! l = Some o →
  set_prop (VObject l) k x s
  = (Return (),
     {| heap := <[l := {| cls := cls o; props := <[k := x]> (props o) |}]> (heap s);
        trace := trace s |}).
Proof.
  intros H. unfold set_prop, get_object. rewrite bind_run, H. reflexivity.
Qed.

(** ** The configuration a wrapper holds *)

Lemma config_of_inv s this cfg :
  config_of s this = Some cfg →
  ∃ o c oc, heap s !! this = Some o ∧ props o !! "config" = Some (VObject c)
            ∧ heap s !! c = Some oc ∧ props oc = cfg.
Proof.
  unfold config_of. intros H.
  destruct (heap s !! this) as [o|] eqn:Ho; simpl in H; [|discriminate].
  destruct (props o !! "config") as [[| | | | |c|]|] eqn:Hc; try discriminate.
  destruct (heap s !! c) as [oc|] eqn:Hoc; simpl in H; [|discriminate].
  exists o, c, oc. by inversion H.
Qed.

(** Allocation leaves the configuration alone. *)
Lemma config_of_alloc h t t' this cfg more :
  config_of {| heap := h; trace := t |} this = Some cfg →
  config_of {| heap := h ++ more; trace := t' |} this = Some cfg.
Proof.
  intros (o & c & oc & Ho & Hc & Hoc & <-)%config_of_inv. simpl in *.
  unfold config_of. simpl.
  rewrite (lookup_app_l_Some _ _ _ _ Ho). simpl. rewrite Hc.
  by rewrite (lookup_app_l_Some _ _ _ _ Hoc).
Qed.

(** [this.config.k] *)
Lemma read_config s this cfg k :
  config_of s this = Some cfg →
  (config ← get_prop (VObject this) "config"; get_prop config k) s
  = (Return (field cfg k), s).
Proof.
  intros (o & c & oc & Ho & Hc & Hoc & <-)%config_of_inv.
  rewrite (bind_Return _ _ _ _ _ (get_prop_object _ _ _ "config" Ho)).
  unfold field at 1. rewrite Hc. simpl. by apply get_prop_object.
Qed.

(** [message || this.config.k] *)
Lemma message_or_default s this cfg message k :
  config_of s this = Some cfg →
  or_else message (config ← get_prop (VObject this) "config"; get_prop config k) s
  = (Return (if truthy message then message else field cfg k), s).
Proof.
  intros H. unfold or_else. destruct (truthy message); [reflexivity|].
  by apply read_config.
Qed.

(** ** What [success] and [error] compute *)

Lemma success_run s this cfg data message :
  config_of s this = Some cfg →
  success this data message s
  = (Return (VObject (length (heap s))),
     {| heap := heap s ++
          [plain {[ "success" := VBool true;
                    "message" := if truthy message then message
                                 else field cfg "defaultSuccessMessage";
                    "data" := data ]}];
        trace := trace s |}).
Proof.
  intros H. unfold success.
  rewrite (bind_Return _ _ _ _ _ (message_or_default _ _ _ _ _ H)).
  reflexivity.
Qed.

(** A truthy message makes [||] skip the configuration altogether. *)
Lemma success_run_truthy s this data message :
  truthy message = true →
  success this data message s
  = (Return (VObject (length (heap s))),
     {| heap := heap s ++
          [plain {[ "success" := VBool true; "message" := message; "data" := data ]}];
        trace := trace s |}).
Proof.
  intros H. unfold success, or_else. rewrite H. reflexivity.
Qed.

Lemma error_run s this cfg message code details :
  config_of s this = Some cfg →
  let code' := default_param (VNumber 500) code in
  error this message code details s
  = (Return (VObject (S (length (heap s)))),
     {| heap := heap s ++
          [plain (error_body (field cfg "includeErrorDetails") code' details);
           plain {[ "success" := VBool false;
                    "message" := if truthy message then message
                                 else field cfg "defaultErrorMessage";
                    "error" := VObject (length (heap s)) ]}];
        trace := trace s |}).
Proof.
  destruct s as [h t]. intros H code'. unfold error. fold code'.
  rewrite (bind_Return _ _ _ _ _ (message_or_default _ _ _ _ _ H)).
  set (msg := if truthy message then message else _).
  do 2 (rewrite bind_run; simpl).
  rewrite length_app, Nat.add_1_r. simpl.
  set (e := plain {[ "code" := code' ]}).
  set (r := plain _).
  set (s1 := {| heap := (h ++ [e]) ++ [r]; trace := t |}).
  assert (Hcfg : config_of s1 this = Some cfg).
  { unfold s1. rewrite <- app_assoc. by eapply config_of_alloc. }
  apply config_of_inv in Hcfg as (o & c & oc & Ho & Hc & Hoc & <-).
  rewrite (bind_Return _ _ _ _ _ (get_prop_object _ _ _ "config" Ho)).
  unfold field at 1. rewrite Hc. simpl default.
  rewrite (bind_Return _ _ _ _ _ (get_prop_object _ _ _ "includeErrorDetails" Hoc)).
  assert (Hr : heap s1 !! S (length h) = Some r).
  { simpl. rewrite lookup_app_r; rewrite length_app, Nat.add_1_r; [|lia].
    by rewrite Nat.sub_diag. }
  assert (He : heap s1 !! length h = Some e).
  { simpl. rewrite <- app_assoc. rewrite lookup_app_r by lia. by rewrite Nat.sub_diag. }
  unfold error_body.
  destruct (truthy (and (field (props oc) "includeErrorDetails") details)).
  - rewrite bind_run.
    rewrite (bind_Return _ _ _ _ _ (get_prop_object _ _ _ "error" Hr)).
    replace (field (props r) "error") with (VObject (length h)) by reflexivity.
    rewrite (set_prop_object _ _ _ _ _ He). simpl.
    unfold mret, M_ret, ret. do 2 f_equal.
    rewrite <- (app_assoc h [e] [r]). rewrite insert_app_r_alt by lia.
    by rewrite Nat.sub_diag.
  - rewrite bind_run. simpl. unfold mret, M_ret, ret, s1.
    by rewrite <- app_assoc.
Qed.

(** ** What the constructor, [configure] and [getConfig] compute *)

Lemma new_run_default s :
  ∃ s', new VUndefined s = (Return (length (heap s)), s')
        ∧ config_of s' (length (heap s)) = Some defaults
        ∧ trace s' = trace s.
Proof.
  destruct s as [h t]. unfold new.
  rewrite bind_run. simpl.
  set (w := {| cls := ClsResponseWrapper; props := ∅ |}).
  do 2 (rewrite bind_run; simpl). rewrite length_app. simpl.
  set (s2 := {| heap := (h ++ [w]) ++ [plain ∅]; trace := t |}).
  assert (H2 : heap s2 !! (length h + 1) = Some (plain ∅)).
  { simpl. apply list_lookup_middle. rewrite length_app. simpl. lia. }
  rewrite (own_props_object _ _ _ H2).
  rewrite bind_run. simpl.
  set (s3 := {| heap := _ ++ [plain (∅ ∪ defaults)]; trace := t |}).
  assert (H3 : heap s3 !! length h = Some w).
  { simpl. rewrite <- !app_assoc. by apply list_lookup_middle. }
  rewrite (bind_Return _ _ _ _ _ (set_prop_object _ _ _ _ _ H3)).
  eexists. split; [reflexivity|]. split; [|done].
  unfold config_of. simpl.
  rewrite list_lookup_insert_eq by (rewrite !length_app; simpl; lia). simpl.
  rewrite lookup_insert_eq.
  rewrite list_lookup_insert_ne by (rewrite !length_app; simpl; lia).
  rewrite (list_lookup_middle _ []) by (rewrite !length_app; simpl; lia).
  simpl. by rewrite (left_id_L ∅ (∪)).
Qed.

Lemma configure_run s this cfg newConfig partial :
  config_of s this = Some cfg →
  own_props newConfig s = (Return partial, s) →
  ∃ s', configure this newConfig s = (Return (), s')
        ∧ config_of s' this = Some (partial ∪ cfg)
        ∧ trace s' = trace s.
Proof.
  intros (o & c & oc & Ho & Hc & Hoc & <-)%config_of_inv Hnew.
  unfold configure.
  rewrite (bind_Return _ _ _ _ _ (get_prop_object _ _ _ "config" Ho)).
  unfold field. rewrite Hc. simpl default.
  rewrite (bind_Return _ _ _ _ _ (own_props_object _ _ _ Hoc)).
  rewrite (bind_Return _ _ _ _ _ Hnew).
  rewrite bind_run. simpl.
  set (new := plain (partial ∪ props oc)).
  set (s1 := {| heap := heap s ++ [new]; trace := trace s |}).
  assert (Ho1 : heap s1 !! this = Some o) by (by apply lookup_app_l_Some).
  rewrite (set_prop_object _ _ _ _ _ Ho1). eexists. split; [reflexivity|].
  split; [|done].
  pose proof (lookup_lt_Some _ _ _ Ho) as Hlt.
  unfold config_of. simpl.
  rewrite list_lookup_insert_eq by (rewrite length_app; lia). simpl.
  rewrite lookup_insert_eq.
  rewrite list_lookup_insert_ne by lia.
  rewrite lookup_app_r by lia. by rewrite Nat.sub_diag.
Qed.

Lemma getConfig_run s this cfg :
  config_of s this = Some cfg →
  getConfig this s
  = (Return (VObject (length (heap s))),
     {| heap := heap s ++ [plain cfg]; trace := trace s |}).
Proof.
  intros (o & c & oc & Ho & Hc & Hoc & <-)%config_of_inv.
  unfold getConfig.
  rewrite (bind_Return _ _ _ _ _ (get_prop_object _ _ _ "config" Ho)).
  unfold field. rewrite Hc. simpl default.
  rewrite (bind_Return _ _ _ _ _ (own_props_object _ _ _ Hoc)).
  reflexivity.
Qed.

(** An object literal [{..}] passed as an argument. *)
Lemma own_props_fresh h t ps :
  own_props (VObject (length h)) {| heap := h ++ [plain ps]; trace := t |}
  = (Return ps, {| heap := h ++ [plain ps]; trace := t |}).
Proof.
  apply (own_props_object _ _ (plain ps)). simpl.
  rewrite lookup_app_r by lia. by rewrite Nat.sub_diag.
Qed.

Lemma new_run_object s p o :
  heap s !! p = Some o →
  ∃ s', new (VObject p) s = (Return (length (heap s)), s')
        ∧ config_of s' (length (heap s)) = Some (props o ∪ defaults)
        ∧ trace s' = trace s.
Proof.
  intros Hp. unfold new.
  rewrite bind_run. simpl.
  set (w := {| cls := ClsResponseWrapper; props := ∅ |}).
  rewrite bind_run. simpl.
  set (s1 := {| heap := heap s ++ [w]; trace := trace s |}).
  assert (H1 : heap s1 !! p = Some o) by (by apply lookup_app_l_Some).
  rewrite (bind_Return _ _ _ _ _ (own_props_object _ _ _ H1)).
  rewrite bind_run. simpl.
  set (s2 := {| heap := _ ++ [plain (props o ∪ defaults)]; trace := trace s |}).
  assert (H2 : heap s2 !! length (heap s) = Some w).
  { simpl. rewrite <- !app_assoc. by apply list_lookup_middle. }
  rewrite (bind_Return _ _ _ _ _ (set_prop_object _ _ _ _ _ H2)).
  eexists. split; [reflexivity|]. split; [|done].
  unfold config_of. simpl.
  rewrite list_lookup_insert_eq by (rewrite !length_app; simpl; lia). simpl.
  rewrite lookup_insert_eq.
  rewrite list_lookup_insert_ne by (rewrite !length_app; simpl; lia).
  by rewrite (list_lookup_middle _ []) by (rewrite !length_app; simpl; lia).
Qed.

(** The builders and [getConfig] leave the configuration as it is; with
    [new_run_default], [new_run_object] and [configure_run] this makes
    "the wrapper holds a configuration object" an invariant of every
    wrapper the constructor made. *)
Lemma success_keeps_config s this cfg data message :
  config_of s this = Some cfg →
  config_of (success this data message s).2 this = Some cfg.
Proof.
  intros H. rewrite (success_run _ _ _ _ _ H). simpl.
  destruct s. by eapply config_of_alloc.
Qed.

Lemma error_keeps_config s this cfg message code details :
  config_of s this = Some cfg →
  config_of (error this message code details s).2 this = Some cfg.
Proof.
  intros H. rewrite (error_run _ _ _ _ _ _ H). simpl.
  destruct s. by eapply config_of_alloc.
Qed.

Lemma getConfig_keeps_config s this cfg :
  config_of s this = Some cfg →
  config_of (getConfig this s).2 this = Some cfg.
Proof.
  intros H. rewrite (getConfig_run _ _ _ H). simpl.
  destruct s. by eapply config_of_alloc.
Qed.

Lemma is_success_envelope_fields s r message data :
  is_success_envelope s r message data →
  field_of s r "success" = Some (VBool true)
  ∧ field_of s r "message" = Some message
  ∧ field_of s r "data" = Some data
  ∧ field_of s r "error" = None.
Proof.
  intros (l & -> & Hl). unfold field_of. rewrite Hl. simpl.
  by rewrite !lookup_insert_eq, !lookup_insert_ne, ?lookup_insert_eq,
     ?lookup_insert_ne, ?lookup_singleton_eq, ?lookup_singleton_ne by done.
Qed.

Lemma is_error_envelope_fields s r message code details :
  is_error_envelope s r message code details →
  field_of s r "success" = Some (VBool false)
  ∧ field_of s r "message" = Some message
  ∧ is_Some (field_of s r "error")
  ∧ field_of s r "data" = None
  ∧ error_field_of s r "code" = Some code
  ∧ error_field_of s r "details" = details.
Proof.
  intros (l & e & -> & Hl & He). unfold error_field_of, field_of.
  rewrite Hl. simpl.
  replace (({[ "success" := VBool false; "message" := message;
               "error" := VObject e ]} : gmap string value) !! "error")
    with (Some (VObject e)) by reflexivity.
  simpl. rewrite He. simpl.
  repeat split; try reflexivity; [by eexists|..]; by destruct details.
Qed.

Lemma lookup_app_two (h : list object) (x y : object) :
  (h ++ [x; y]) !! length h = Some x ∧ (h ++ [x; y]) !! S (length h) = Some y.
Proof.
  split; [by apply list_lookup_middle|].
  rewrite lookup_app_r by lia.
  by replace (S (length h) - length h) with 1 by lia.
Qed.

(** [e.details = d] on the literal [{ code }] gives [{ code, details: d }]. *)
Lemma code_then_details (c d : value) :
  <["details" := d]> ({[ "code" := c ]} : gmap string value)
  = {[ "code" := c; "details" := d ]}.
Proof.
  by apply insert_singleton_ne.
Qed.

Lemma success_envelope s this cfg data message :
  config_of s this = Some cfg →
  ∃ r s', success this data message s = (Return r, s')
          ∧ is_success_envelope s' r
              (if truthy message then message
               else field cfg "defaultSuccessMessage") data
          ∧ trace s' = trace s.
Proof.
  intros H. rewrite (success_run _ _ _ _ _ H).
  eexists _, _. split; [reflexivity|]. split; [|done].
  eexists. split; [reflexivity|]. simpl. by apply list_lookup_middle.
Qed.

Lemma error_envelope s this cfg message code details :
  config_of s this = Some cfg →
  ∃ r s', error this message code details s = (Return r, s')
          ∧ is_error_envelope s' r
              (if truthy message then message
               else field cfg "defaultErrorMessage")
              (default_param (VNumber 500) code)
              (attached_details (field cfg "includeErrorDetails") details)
          ∧ trace s' = trace s.
Proof.
  intros H. rewrite (error_run _ _ _ _ _ _ H).
  eexists _, _. split; [reflexivity|]. split; [|done].
  eexists _, _. split; [reflexivity|]. simpl.
  destruct (lookup_app_two (heap s)
              (plain (error_body (field cfg "includeErrorDetails")
                        (default_param (VNumber 500) code) details))
              (plain {[ "success" := VBool false;
                        "message" := if truthy message then message
                                     else field cfg "defaultErrorMessage";
                        "error" := VObject (length (heap s)) ]}))
    as [He Hr].
  split; [exact Hr|]. etrans; [exact He|].
  unfold error_body, attached_details.
  destruct (truthy (and _ _)); [|done]. by rewrite code_then_details.
Qed.

(** ** Truthiness and default parameters *)

Lemma truthy_and a b : truthy (and a b) = truthy a && truthy b.
Proof. unfold and. by destruct (truthy a) eqn:Ha; simpl. Qed.

Lemma truthy_string m : truthy (VString m) = true ↔ m ≠ "".
Proof.
  simpl. rewrite negb_true_iff. split.
  - intros H ->. discriminate.
  - intros H. by apply String.eqb_neq.
Qed.

Lemma default_param_idemp d x :
  d ≠ VUndefined → default_param d (default_param d x) = default_param d x.
Proof. by destruct x, d. Qed.

Lemma default_param_supplied d x : x ≠ VUndefined → default_param d x = x.
Proof. by destruct x. Qed.

Example module_state_config : config_of module_state 0 = Some defaults.
Proof. reflexivity. Qed.

Example verbose_state_config : config_of verbose_state 0 = Some verbose_config.
Proof. reflexivity. Qed.

Example with_a1_verbose_config :
  config_of (with_a1 verbose_state) 0 = Some verbose_config
  ∧ heap (with_a1 verbose_state) !! 5 = Some (plain {[ "a" := VNumber 1 ]}).
Proof. split; reflexivity. Qed.

(** ** The envelope builder *)

(** C1, as stated, fails at the empty message: on the default instance
    [success(null, '')] answers with the configured default message, so the
    result is not the envelope [{ success: true, message: '', data: null }]. *)
Lemma success_empty_message_counterexample :
  ∃ r s', success 0 VNull (VString "") module_state = (Return r, s')
          ∧ field_of s' r "message"
            = Some (VString "Operation completed successfully")
          ∧ ¬ is_success_envelope s' r (VString "") VNull.
Proof.
  eexists _, _. split; [reflexivity|]. split; [reflexivity|].
  intros (_ & Hm & _)%is_success_envelope_fields.
  vm_compute in Hm. discriminate.
Qed.

(** C1, amended: for every data value [d] and every non-empty message
    string [m], [success(d, m)] returns exactly the envelope
    [{ success: true, message: m, data: d }], whatever the configuration;
    it touches neither another object nor the framework. *)
Theorem success_nonempty_message s this data m :
  m ≠ "" →
  ∃ r s', success this data (VString m) s = (Return r, s')
          ∧ is_success_envelope s' r (VString m) data
          ∧ heap s' = heap s ++ [plain {[ "success" := VBool true;
                                          "message" := VString m;
                                          "data" := data ]}]
          ∧ trace s' = trace s.
Proof.
  intros Hm%truthy_string.
  rewrite (success_run_truthy _ _ _ _ Hm).
  eexists _, _. split; [reflexivity|]. split; [|done].
  eexists. split; [reflexivity|]. simpl. by apply list_lookup_middle.
Qed.

Lemma success_nonempty_message_witness :
  ∃ r s', success 0 (VNumber 1) (VString "User created") module_state = (Return r, s')
          ∧ is_success_envelope s' r (VString "User created") (VNumber 1)
          ∧ heap s' = heap module_state
                      ++ [plain {[ "success" := VBool true;
                                   "message" := VString "User created";
                                   "data" := VNumber 1 ]}]
          ∧ trace s' = trace module_state.
Proof.
  apply (success_nonempty_message module_state 0 (VNumber 1) "User created").
  discriminate.
Defined.

(** C4: with the message omitted, [success(d)] returns the envelope whose
    message is the [defaultSuccessMessage] of the configuration the wrapper
    holds when it is called. *)
Theorem success_omitted_message_default s this cfg data :
  config_of s this = Some cfg →
  ∃ r s', success this data VUndefined s = (Return r, s')
          ∧ is_success_envelope s' r (field cfg "defaultSuccessMessage") data
          ∧ field_of s' r "message" = Some (field cfg "defaultSuccessMessage").
Proof.
  intros H.
  destruct (success_envelope _ _ _ data VUndefined H) as (r & s' & Hrun & Henv & _).
  exists r, s'. split; [done|]. split; [done|].
  by apply is_success_envelope_fields in Henv as (_ & ? & _).
Qed.

Lemma success_omitted_message_default_witness :
  ∃ r s', success 0 (VBool true) VUndefined module_state = (Return r, s')
          ∧ is_success_envelope s' r (field defaults "defaultSuccessMessage") (VBool true)
          ∧ field_of s' r "message" = Some (field defaults "defaultSuccessMessage").
Proof.
  apply (success_omitted_message_default module_state 0 defaults (VBool true)).
  reflexivity.
Defined.

(** C9: a falsy message (the empty string, like [undefined]) is replaced by
    the configured default: [success(d, '')] carries
    [defaultSuccessMessage] and [error('')] carries [defaultErrorMessage]. *)
Theorem falsy_message_takes_default s this cfg data message code details :
  config_of s this = Some cfg →
  truthy message = false →
  truthy (VString "") = false
  ∧ (∃ r s', success this data message s = (Return r, s')
             ∧ field_of s' r "message" = Some (field cfg "defaultSuccessMessage"))
  ∧ (∃ r s', error this message code details s = (Return r, s')
             ∧ field_of s' r "message" = Some (field cfg "defaultErrorMessage")).
Proof.
  intros H Hf. split; [reflexivity|]. split.
  - destruct (success_envelope _ _ _ data message H) as (r & s' & Hrun & Henv & _).
    rewrite Hf in Henv. exists r, s'. split; [done|].
    by apply is_success_envelope_fields in Henv as (_ & ? & _).
  - destruct (error_envelope _ _ _ message code details H)
      as (r & s' & Hrun & Henv & _).
    rewrite Hf in Henv. exists r, s'. split; [done|].
    by apply is_error_envelope_fields in Henv as (_ & ? & _).
Qed.

Lemma falsy_message_takes_default_witness :
  truthy (VString "") = false
  ∧ (∃ r s', success 0 VNull (VString "") module_state = (Return r, s')
             ∧ field_of s' r "message" = Some (field defaults "defaultSuccessMessage"))
  ∧ (∃ r s', error 0 (VString "") VUndefined VUndefined module_state = (Return r, s')
             ∧ field_of s' r "message" = Some (field defaults "defaultErrorMessage")).
Proof.
  apply (falsy_message_takes_default module_state 0 defaults); reflexivity.
Defined.

(** C2, as stated, fails for a supplied but falsy details argument: with
    [includeErrorDetails = true], [error('x', 404, 0)] is given details
    (the argument is not [undefined]) and yet returns
    [{ success: false, message: 'x', error: { code: 404 } }]. *)
Lemma error_falsy_details_counterexample :
  (λ cfg, field cfg "includeErrorDetails") <$> config_of verbose_state 0
    = Some (VBool true)
  ∧ VNumber 0 ≠ VUndefined
  ∧ ∃ r s', error 0 (VString "x") (VNumber 404) (VNumber 0) verbose_state
            = (Return r, s')
            ∧ is_error_envelope s' r (VString "x") (VNumber 404) None
            ∧ error_field_of s' r "details" = None.
Proof.
  split; [reflexivity|]. split; [discriminate|].
  destruct (error_envelope verbose_state 0 verbose_config
              (VString "x") (VNumber 404) (VNumber 0) eq_refl)
    as (r & s' & Hrun & Henv & _).
  exists r, s'. split; [done|]. split; [done|].
  by apply is_error_envelope_fields in Henv as (_ & _ & _ & _ & _ & ?).
Qed.

(** C2, amended: the envelope returned by [error] contains the details
    field if and only if the details argument is truthy and the
    configuration's [includeErrorDetails] is truthy, and then the field is
    the argument itself; the envelope is
    [{ success: false, message, error: { code, details } }] in that case
    and [{ success: false, message, error: { code } }] otherwise. *)
Theorem error_details_iff s this cfg message code details :
  config_of s this = Some cfg →
  ∃ r s', error this message code details s = (Return r, s')
          ∧ is_error_envelope s' r
              (if truthy message then message else field cfg "defaultErrorMessage")
              (default_param (VNumber 500) code)
              (if truthy details && truthy (field cfg "includeErrorDetails")
               then Some details else None)
          ∧ (is_Some (error_field_of s' r "details")
             ↔ truthy details = true
               ∧ truthy (field cfg "includeErrorDetails") = true)
          ∧ (∀ d, error_field_of s' r "details" = Some d → d = details).
Proof.
  intros H.
  destruct (error_envelope _ _ _ message code details H)
    as (r & s' & Hrun & Henv & _).
  unfold attached_details in Henv. rewrite truthy_and, andb_comm in Henv.
  exists r, s'. split; [done|]. split; [done|].
  apply is_error_envelope_fields in Henv as (_ & _ & _ & _ & _ & ->).
  destruct (truthy details), (truthy (field cfg "includeErrorDetails")); simpl;
    (split; [|by intros d [=]]); (split; [intros Hs|intros [??]]);
    try done; try (by eexists); by destruct Hs.
Qed.

(** [error('x', 404, {a:1})], the literal being object 5, with
    [includeErrorDetails] true and false. *)
Lemma error_details_iff_witness :
  (∃ r s', error 0 (VString "x") (VNumber 404) (VObject 5) (with_a1 verbose_state)
           = (Return r, s')
           ∧ is_error_envelope s' r (VString "x") (VNumber 404) (Some (VObject 5))
           ∧ (is_Some (error_field_of s' r "details") ↔ true = true ∧ true = true)
           ∧ (∀ d, error_field_of s' r "details" = Some d → d = VObject 5))
  ∧ (∃ r s', error 0 (VString "x") (VNumber 404) (VObject 3) (with_a1 module_state)
             = (Return r, s')
             ∧ is_error_envelope s' r (VString "x") (VNumber 404) None
             ∧ (is_Some (error_field_of s' r "details") ↔ true = true ∧ false = true)
             ∧ (∀ d, error_field_of s' r "details" = Some d → d = VObject 3)).
Proof.
  split.
  - apply (error_details_iff (with_a1 verbose_state) 0 verbose_config
             (VString "x") (VNumber 404) (VObject 5)).
    reflexivity.
  - apply (error_details_iff (with_a1 module_state) 0 defaults
             (VString "x") (VNumber 404) (VObject 3)).
    reflexivity.
Defined.

(** C10: a falsy details argument ([0], [''], [false], [null]) is left out
    of the envelope even when [includeErrorDetails] is true, and
    [error.code] is the supplied code whatever the configuration and the
    details are. *)
Theorem error_falsy_details_omitted s this cfg message code details :
  config_of s this = Some cfg →
  (truthy (VNumber 0) = false ∧ truthy (VString "") = false
   ∧ truthy (VBool false) = false ∧ truthy VNull = false)
  ∧ ∃ r s', error this message code details s = (Return r, s')
            ∧ (truthy details = false → error_field_of s' r "details" = None)
            ∧ (code ≠ VUndefined → error_field_of s' r "code" = Some code)
            ∧ error_field_of s' r "code" = Some (default_param (VNumber 500) code).
Proof.
  intros H. split; [by repeat split|].
  destruct (error_envelope _ _ _ message code details H)
    as (r & s' & Hrun & Henv & _).
  exists r, s'. split; [done|].
  apply is_error_envelope_fields in Henv as (_ & _ & _ & _ & Hcode & Hdet).
  split; [|split; [|done]].
  - intros Hf. rewrite Hdet. unfold attached_details.
    by rewrite truthy_and, Hf, andb_false_r.
  - intros Hc. by rewrite Hcode, default_param_supplied.
Qed.

Lemma error_falsy_details_omitted_witness :
  (truthy (VNumber 0) = false ∧ truthy (VString "") = false
   ∧ truthy (VBool false) = false ∧ truthy VNull = false)
  ∧ ∃ r s', error 0 (VString "x") (VNumber 404) VNull verbose_state = (Return r, s')
            ∧ (truthy VNull = false → error_field_of s' r "details" = None)
            ∧ (VNumber 404 ≠ VUndefined → error_field_of s' r "code" = Some (VNumber 404))
            ∧ error_field_of s' r "code" = Some (VNumber 404).
Proof.
  apply (error_falsy_details_omitted verbose_state 0 verbose_config
           (VString "x") (VNumber 404) VNull).
  reflexivity.
Defined.

(** C3: the envelopes form a discriminated union.  What [success] returns
    has [success: true], a [data] property and no [error] property; what
    [error] returns has [success: false], an [error] property and no [data]
    property. *)
Theorem envelope_discriminated_union s this cfg data message code details :
  config_of s this = Some cfg →
  (∃ r s', success this data message s = (Return r, s')
           ∧ field_of s' r "success" = Some (VBool true)
           ∧ is_Some (field_of s' r "data")
           ∧ field_of s' r "error" = None)
  ∧ (∃ r s', error this message code details s = (Return r, s')
             ∧ field_of s' r "success" = Some (VBool false)
             ∧ is_Some (field_of s' r "error")
             ∧ field_of s' r "data" = None).
Proof.
  intros H. split.
  - destruct (success_envelope _ _ _ data message H) as (r & s' & Hrun & Henv & _).
    exists r, s'. split; [done|].
    apply is_success_envelope_fields in Henv as (? & _ & Hd & ?).
    rewrite Hd. by eauto.
  - destruct (error_envelope _ _ _ message code details H)
      as (r & s' & Hrun & Henv & _).
    exists r, s'. split; [done|].
    by apply is_error_envelope_fields in Henv as (? & _ & ? & ? & _).
Qed.

Lemma envelope_discriminated_union_witness :
  (∃ r s', success 0 VUndefined VUndefined module_state = (Return r, s')
           ∧ field_of s' r "success" = Some (VBool true)
           ∧ is_Some (field_of s' r "data")
           ∧ field_of s' r "error" = None)
  ∧ (∃ r s', error 0 VUndefined VUndefined VUndefined module_state = (Return r, s')
             ∧ field_of s' r "success" = Some (VBool false)
             ∧ is_Some (field_of s' r "error")
             ∧ field_of s' r "data" = None).
Proof.
  apply (envelope_discriminated_union module_state 0 defaults). reflexivity.
Defined.

(** C7: [success] and [error] are total.  On a wrapper made by the
    constructor (it holds a configuration object, an invariant by
    [new_run_default], [new_run_object], [configure_run] and the
    [_keeps_config] lemmas) they return an envelope for every data, message,
    code and details, [undefined] included; they neither throw nor call
    the framework. *)
Theorem success_error_total s this cfg data message code details :
  config_of s this = Some cfg →
  (∃ r s' m, success this data message s = (Return r, s')
             ∧ is_success_envelope s' r m data
             ∧ trace s' = trace s)
  ∧ (∃ r s' m c d, error this message code details s = (Return r, s')
                   ∧ is_error_envelope s' r m c d
                   ∧ trace s' = trace s).
Proof.
  intros H. split.
  - destruct (success_envelope _ _ _ data message H) as (r & s' & ?).
    by exists r, s', (if truthy message then message
                      else field cfg "defaultSuccessMessage").
  - destruct (error_envelope _ _ _ message code details H) as (r & s' & ?).
    by exists r, s', (if truthy message then message
                      else field cfg "defaultErrorMessage"),
                     (default_param (VNumber 500) code),
                     (attached_details (field cfg "includeErrorDetails") details).
Qed.

Lemma success_error_total_witness :
  (∃ r s' m, success 0 VUndefined VUndefined module_state = (Return r, s')
             ∧ is_success_envelope s' r m VUndefined
             ∧ trace s' = trace module_state)
  ∧ (∃ r s' m c d,
        error 0 VUndefined (VNumber nan) (VFunction FastifyApiError) module_state
        = (Return r, s')
        ∧ is_error_envelope s' r m c d
        ∧ trace s' = trace module_state).
Proof.
  apply (success_error_total module_state 0 defaults). reflexivity.
Defined.

(** ** The configuration store *)

(** C5: in any state of a wrapper, after
    [configure({ defaultErrorMessage: y })] a call [error()] with no
    arguments returns an envelope whose message is [y]; in particular for
    [y = 'Y']. *)
Theorem configure_defaultErrorMessage_then_error s this cfg y :
  config_of s this = Some cfg →
  ∃ r s', (p ← alloc (plain {[ "defaultErrorMessage" := VString y ]});
           configure this (VObject p);;
           error this VUndefined VUndefined VUndefined) s = (Return r, s')
          ∧ field_of s' r "message" = Some (VString y).
Proof.
  intros H. rewrite bind_run. simpl.
  set (s1 := {| heap := heap s ++ [_]; trace := trace s |}).
  assert (H1 : config_of s1 this = Some cfg).
  { destruct s. by eapply config_of_alloc. }
  destruct (configure_run s1 this cfg (VObject (length (heap s)))
              {[ "defaultErrorMessage" := VString y ]} H1)
    as (s2 & Hrun & H2 & _).
  { apply own_props_fresh. }
  rewrite (bind_Return _ _ _ _ _ Hrun).
  destruct (error_envelope _ _ _ VUndefined VUndefined VUndefined H2)
    as (r & s' & Herr & Henv & _).
  exists r, s'. split; [done|].
  apply is_error_envelope_fields in Henv as (_ & -> & _).
  simpl. unfold field. by rewrite lookup_union, lookup_singleton_eq, union_Some_l.
Qed.

Lemma configure_defaultErrorMessage_then_error_witness :
  ∃ r s', (p ← alloc (plain {[ "defaultErrorMessage" := VString "Y" ]});
           configure 0 (VObject p);;
           error 0 VUndefined VUndefined VUndefined) verbose_state = (Return r, s')
          ∧ field_of s' r "message" = Some (VString "Y").
Proof.
  apply (configure_defaultErrorMessage_then_error verbose_state 0 verbose_config "Y").
  reflexivity.
Defined.

(** C6: [configure(partial)] merges: a property present in [partial] takes
    its value there, every other property of the configuration keeps the
    value it had.  [getConfig()] returns a fresh object with the properties
    of the configuration; writing a property of that object changes neither
    the configuration the wrapper holds nor what a later [getConfig()]
    returns, and the same holds whatever the returned object is turned
    into. *)
Theorem configure_merges_getConfig_copies s this cfg :
  config_of s this = Some cfg →
  (∀ p partial,
     heap s !! p = Some partial →
     ∃ s' cfg', configure this (VObject p) s = (Return (), s')
                ∧ config_of s' this = Some cfg'
                ∧ ∀ k, cfg' !! k = match props partial !! k with
                                   | Some v => Some v
                                   | None => cfg !! k
                                   end)
  ∧ ∃ l s1,
      getConfig this s = (Return (VObject l), s1)
      ∧ heap s !! l = None
      ∧ heap s1 !! l = Some (plain cfg)
      ∧ config_of s1 this = Some cfg
      ∧ (∀ k x, ∃ s2 l' s3,
            set_prop (VObject l) k x s1 = (Return (), s2)
            ∧ field_of s2 (VObject l) k = Some x
            ∧ config_of s2 this = Some cfg
            ∧ getConfig this s2 = (Return (VObject l'), s3)
            ∧ heap s3 !! l' = Some (plain cfg))
      ∧ (∀ o, config_of {| heap := <[l := o]> (heap s1); trace := trace s1 |} this
              = Some cfg).
Proof.
  intros H. split.
  - intros p partial Hp.
    destruct (configure_run s this cfg (VObject p) (props partial) H
                (own_props_object _ _ _ Hp)) as (s' & Hrun & Hcfg & _).
    exists s', (props partial ∪ cfg). split; [done|]. split; [done|].
    intros k. rewrite lookup_union.
    by destruct (props partial !! k), (cfg !! k).
  - rewrite (getConfig_run _ _ _ H).
    set (l := length (heap s)).
    assert (Hmut : ∀ o, <[l := o]> (heap s ++ [plain cfg]) = heap s ++ [o]).
    { intros o. unfold l. rewrite insert_app_r_alt by lia.
      by rewrite Nat.sub_diag. }
    eexists _, _. split; [reflexivity|]. fold l. simpl.
    split; [by apply lookup_ge_None_2|].
    split; [by apply list_lookup_middle|].
    split; [destruct s; by eapply config_of_alloc|].
    split.
    + intros k x.
      set (s1 := {| heap := heap s ++ [plain cfg]; trace := trace s |}).
      assert (Hl : heap s1 !! l = Some (plain cfg)) by (by apply list_lookup_middle).
      set (s2 := {| heap := heap s ++ [{| cls := ClsObject; props := <[k := x]> cfg |}];
                    trace := trace s |}).
      assert (H2 : config_of s2 this = Some cfg).
      { destruct s. by eapply config_of_alloc. }
      exists s2, (length (heap s2)),
        {| heap := heap s2 ++ [plain cfg]; trace := trace s2 |}.
      split.
      { rewrite (set_prop_object _ _ _ k x Hl). simpl. by rewrite Hmut. }
      split.
      { unfold field_of, s2. simpl.
        rewrite (list_lookup_middle _ [] _ l) by done. simpl.
        by rewrite lookup_insert_eq. }
      split; [done|]. split; [by apply getConfig_run|].
      simpl. by apply list_lookup_middle.
    + intros o. rewrite Hmut. destruct s. by eapply config_of_alloc.
Qed.

(** On the default instance, with the literal [{ a: 1 }] at hand to pass
    to [configure]. *)
Lemma configure_merges_getConfig_copies_witness :
  (∀ p partial,
     heap (with_a1 module_state) !! p = Some partial →
     ∃ s' cfg', configure 0 (VObject p) (with_a1 module_state) = (Return (), s')
                ∧ config_of s' 0 = Some cfg'
                ∧ ∀ k, cfg' !! k = match props partial !! k with
                                   | Some v => Some v
                                   | None => defaults !! k
                                   end)
  ∧ ∃ l s1,
      getConfig 0 (with_a1 module_state) = (Return (VObject l), s1)
      ∧ heap (with_a1 module_state) !! l = None
      ∧ heap s1 !! l = Some (plain defaults)
      ∧ config_of s1 0 = Some defaults
      ∧ (∀ k x, ∃ s2 l' s3,
            set_prop (VObject l) k x s1 = (Return (), s2)
            ∧ field_of s2 (VObject l) k = Some x
            ∧ config_of s2 0 = Some defaults
            ∧ getConfig 0 s2 = (Return (VObject l'), s3)
            ∧ heap s3 !! l' = Some (plain defaults))
      ∧ (∀ o, config_of {| heap := <[l := o]> (heap s1); trace := trace s1 |} 0
              = Some defaults).
Proof.
  apply (configure_merges_getConfig_copies (with_a1 module_state) 0 defaults).
  reflexivity.
Defined.

(** ** The framework adapters *)

(** Express: [res.apiError(message, code, details)] calls
    [res.status(code)], then builds the envelope with [error], then calls
    [.json(envelope)] on what [status] returned.  The status passed and the
    envelope's [error.code] are the same value. *)
Lemma express_apiError_run s this cfg res message code details :
  config_of s this = Some cfg →
  let code' := default_param (VNumber 500) code in
  ∃ body s1 s',
    express_apiError this res message code details s = (Return VUndefined, s')
    ∧ error this message code details
        {| heap := heap s; trace := trace s ++ [CallMethod res "status" [code']] |}
      = (Return body, s1)
    ∧ s' = {| heap := heap s1; trace := trace s1 ++ [CallMethod res "json" [body]] |}
    ∧ trace s' = trace s ++ [CallMethod res "status" [code'];
                             CallMethod res "json" [body]]
    ∧ error_field_of s' body "code" = Some code'.
Proof.
  intros H code'. unfold express_apiError. fold code'.
  unfold host_method at 1. rewrite !bind_run. simpl.
  set (s0 := {| heap := heap s; trace := trace s ++ [_] |}).
  assert (H0 : config_of s0 this = Some cfg).
  { destruct s. exact H. }
  assert (Hcode : error this message code' details = error this message code details).
  { unfold error, code'. by rewrite default_param_idemp. }
  rewrite Hcode.
  destruct (error_envelope _ _ _ message code details H0)
    as (body & s1 & Hrun & Henv & Htr).
  exists body, s1. eexists.
  split; [by rewrite (bind_Return _ _ _ _ _ Hrun)|].
  split; [done|]. split; [done|]. simpl.
  split; [rewrite Htr; unfold s0; simpl; by rewrite <- app_assoc|].
  apply is_error_envelope_fields in Henv as (_ & _ & _ & _ & Hc & _).
  exact Hc.
Qed.

(** The middleware puts the two methods on [res] and calls [next]; after
    it, [res.apiError(..)] is the function above. *)
Lemma express_middleware_installs s this req res o next args :
  heap s !! res = Some o →
  ∃ s', middleware_body this req (VObject res) (VFunction (Host next)) s
        = (Return VUndefined, s')
        ∧ trace s' = trace s ++ [CallFunction next []]
        ∧ call_method (VObject res) "apiError" args s'
          = express_apiError this (VObject res)
              (arg 0 args) (arg 1 args) (arg 2 args) s'.
Proof.
  intros Ho. unfold middleware_body.
  rewrite (bind_Return _ _ _ _ _ (set_prop_object _ _ _ _ _ Ho)).
  set (s1 := {| heap := <[res := _]> (heap s); trace := trace s |}).
  pose proof (lookup_lt_Some _ _ _ Ho) as Hlt.
  assert (H1 : heap s1 !! res = Some {| cls := cls o;
             props := <["apiSuccess" := VFunction (ExpressApiSuccess this (VObject res))]>
                        (props o) |}).
  { simpl. by apply list_lookup_insert_eq. }
  rewrite (bind_Return _ _ _ _ _ (set_prop_object _ _ _ _ _ H1)).
  rewrite !bind_run. simpl.
  eexists. split; [reflexivity|]. split; [done|].
  unfold call_method.
  erewrite bind_Return; last first.
  { apply get_prop_object. simpl. apply list_lookup_insert_eq.
    by rewrite length_insert. }
  unfold field. simpl. by rewrite lookup_insert_eq.
Qed.

(** Fastify: the function registered as [apiError] does what the Express
    one does provided [this.responseWrapper] is a wrapper. *)
Lemma fastify_apiError_run s reply ro w wo cfg message code details :
  heap s !! reply = Some ro →
  props ro !! "responseWrapper" = Some (VObject w) →
  heap s !! w = Some wo →
  cls wo = ClsResponseWrapper →
  config_of s w = Some cfg →
  let code' := default_param (VNumber 500) code in
  ∃ body s',
    fastify_apiError (VObject reply) message code details s = (Return VUndefined, s')
    ∧ trace s' = trace s ++ [CallMethod (VObject reply) "code" [code'];
                             CallMethod (VObject reply) "send" [body]]
    ∧ error_field_of s' body "code" = Some code'.
Proof.
  intros Hr Hw Hwo Hcls H code'. unfold fastify_apiError. fold code'.
  rewrite (bind_Return _ _ _ _ _ (get_prop_object _ _ _ "responseWrapper" Hr)).
  unfold field. rewrite Hw. simpl default.
  unfold call_wrapper_method, get_object.
  rewrite !bind_run, Hwo, Hcls.
  assert (Hcode : error w message code' details = error w message code details).
  { unfold error, code'. by rewrite default_param_idemp. }
  rewrite Hcode.
  destruct (error_envelope _ _ _ message code details H)
    as (body & s1 & Hrun & Henv & Htr).
  rewrite Hrun. simpl. exists body. eexists. split; [reflexivity|]. simpl.
  split; [by rewrite Htr, <- app_assoc|].
  apply is_error_envelope_fields in Henv as (_ & _ & _ & _ & Hc & _).
  exact Hc.
Qed.

(** A reply that has no [responseWrapper] property: the function throws
    before it builds or sends anything. *)
Lemma fastify_apiError_without_wrapper s reply ro message code details :
  heap s !! reply = Some ro →
  props ro !! "responseWrapper" = None →
  fastify_apiError (VObject reply) message code details s
  = (Throw (TypeError "Cannot read properties of undefined"), s).
Proof.
  intros Hr Hw. unfold fastify_apiError.
  rewrite (bind_Return _ _ _ _ _ (get_prop_object _ _ _ "responseWrapper" Hr)).
  unfold field. rewrite Hw. reflexivity.
Qed.

(** Express, [res.apiError('x', 404)]: status 404 is set and the envelope
    (object 6, whose [error] is object 5) is sent. *)
Example express_request_apiError :
  ∃ s', express_request "apiError" [VString "x"; VNumber 404] empty_state
        = (Return VUndefined, s')
        ∧ trace s' = [CallFunction "next" [];
                      CallMethod (VObject 4) "status" [VNumber 404];
                      CallMethod (VObject 4) "json" [VObject 6]]
        ∧ is_error_envelope s' (VObject 6) (VString "x") (VNumber 404) None.
Proof.
  eexists. split; [reflexivity|]. split; [reflexivity|].
  exists 6, 5. repeat split; reflexivity.
Qed.

(** C8 fails on the Fastify adapter.  [decorateFastify] registers the
    wrapper with [fastify.decorate], on the server instance, while the two
    reply methods look it up as [this.responseWrapper], on the reply.  For
    every message, code and details, [reply.apiError(message, code,
    details)] throws a [TypeError] and makes no call to the framework:
    neither [reply.code] nor [reply.send] is reached.  [reply.apiSuccess]
    fails the same way. *)
Theorem fastify_apiError_throws message code details :
  (∃ s', fastify_request "apiError" [message; code; details] empty_state
         = (Throw (TypeError "Cannot read properties of undefined"), s')
         ∧ trace s' = [])
  ∧ (∃ s', fastify_request "apiSuccess" [details; message] empty_state
           = (Throw (TypeError "Cannot read properties of undefined"), s')
           ∧ trace s' = []).
Proof.
  split; eexists; split; reflexivity.
Qed.

(** ** The stores the constructor and [configure] leave *)

Lemma new_object_heap s p o :
  heap s !! p = Some o →
  new (VObject p) s
  = (Return (length (heap s)),
     {| heap := heap s ++
          [{| cls := ClsResponseWrapper;
              props := {[ "config" := VObject (S (length (heap s))) ]} |};
           plain (props o ∪ defaults)];
        trace := trace s |}).
Proof.
  intros Hp. unfold new.
  rewrite bind_run. simpl.
  set (w := {| cls := ClsResponseWrapper; props := ∅ |}).
  rewrite bind_run. simpl.
  set (s1 := {| heap := heap s ++ [w]; trace := trace s |}).
  assert (H1 : heap s1 !! p = Some o) by (by apply lookup_app_l_Some).
  rewrite (bind_Return _ _ _ _ _ (own_props_object _ _ _ H1)).
  rewrite bind_run. simpl.
  set (s2 := {| heap := _ ++ [plain (props o ∪ defaults)]; trace := trace s |}).
  assert (H2 : heap s2 !! length (heap s) = Some w).
  { simpl. rewrite <- !app_assoc. by apply list_lookup_middle. }
  rewrite (bind_Return _ _ _ _ _ (set_prop_object _ _ _ _ _ H2)).
  unfold mret, M_ret, ret. simpl. do 2 f_equal.
  rewrite length_app, Nat.add_1_r.
  rewrite <- (app_assoc (heap s) [w]). rewrite insert_app_r_alt by lia.
  rewrite Nat.sub_diag. simpl. by rewrite insert_empty.
Qed.

Lemma new_default_heap s :
  new VUndefined s
  = (Return (length (heap s)),
     {| heap := heap s ++
          [{| cls := ClsResponseWrapper;
              props := {[ "config" := VObject (S (S (length (heap s)))) ]} |};
           plain ∅;
           plain defaults];
        trace := trace s |}).
Proof.
  unfold new.
  rewrite bind_run. simpl.
  set (w := {| cls := ClsResponseWrapper; props := ∅ |}).
  do 2 (rewrite bind_run; simpl). rewrite length_app. simpl.
  set (s2 := {| heap := (heap s ++ [w]) ++ [plain ∅]; trace := trace s |}).
  assert (H2 : heap s2 !! (length (heap s) + 1) = Some (plain ∅)).
  { simpl. apply list_lookup_middle. rewrite length_app. simpl. lia. }
  rewrite (own_props_object _ _ _ H2).
  rewrite bind_run. simpl.
  set (s3 := {| heap := _ ++ [plain (∅ ∪ defaults)]; trace := trace s |}).
  assert (H3 : heap s3 !! length (heap s) = Some w).
  { simpl. rewrite <- !app_assoc. by apply list_lookup_middle. }
  rewrite (bind_Return _ _ _ _ _ (set_prop_object _ _ _ _ _ H3)).
  unfold mret, M_ret, ret. simpl. do 2 f_equal.
  rewrite !length_app. simpl.
  replace (length (heap s) + 1 + 1) with (S (S (length (heap s)))) by lia.
  rewrite <- !(app_assoc (heap s)). rewrite insert_app_r_alt by lia.
  rewrite Nat.sub_diag. simpl. by rewrite insert_empty, (left_id_L ∅ (∪)).
Qed.

Lemma configure_heap s this o c oc newConfig partial :
  heap s !! this = Some o →
  props o !! "config" = Some (VObject c) →
  heap s !! c = Some oc →
  own_props newConfig s = (Return partial, s) →
  configure this newConfig s
  = (Return (),
     {| heap := <[this := {| cls := cls o;
                             props := <["config" := VObject (length (heap s))]> (props o) |}]>
                  (heap s)
                ++ [plain (partial ∪ props oc)];
        trace := trace s |}).
Proof.
  intros Ho Hc Hoc Hnew. unfold configure.
  rewrite (bind_Return _ _ _ _ _ (get_prop_object _ _ _ "config" Ho)).
  unfold field. rewrite Hc. simpl default.
  rewrite (bind_Return _ _ _ _ _ (own_props_object _ _ _ Hoc)).
  rewrite (bind_Return _ _ _ _ _ Hnew).
  rewrite bind_run. simpl.
  set (s1 := {| heap := heap s ++ [_]; trace := trace s |}).
  assert (Ho1 : heap s1 !! this = Some o) by (by apply lookup_app_l_Some).
  rewrite (set_prop_object _ _ _ _ _ Ho1). simpl. do 2 f_equal.
  apply insert_app_l. by eapply lookup_lt_Some.
Qed.

(** The parts of a well-formed wrapper. *)
Lemma is_wrapper_inv s this :
  is_wrapper s this = true →
  ∃ ps c cps, heap s !! this = Some {| cls := ClsResponseWrapper; props := ps |}
              ∧ ps !! "config" = Some (VObject c)
              ∧ heap s !! c = Some (plain cps)
              ∧ config_of s this = Some cps.
Proof.
  unfold is_wrapper, config_of. intros H.
  destruct (heap s !! this) as [[[] ps]|] eqn:Ho; try discriminate.
  destruct (ps !! "config") as [[| | | | |c|]|] eqn:Hc; try discriminate.
  destruct (heap s !! c) as [[[] cps]|] eqn:Hoc; try discriminate.
  exists ps, c, cps. simpl. rewrite Hc, Hoc. by repeat split.
Qed.

Lemma is_wrapper_intro s this ps c cps :
  heap s !! this = Some {| cls := ClsResponseWrapper; props := ps |} →
  ps !! "config" = Some (VObject c) →
  heap s !! c = Some (plain cps) →
  is_wrapper s this = true.
Proof. intros Ho Hc Hoc. unfold is_wrapper. by rewrite Ho, Hc, Hoc. Qed.

Lemma is_wrapper_config s this :
  is_wrapper s this = true → is_Some (config_of s this).
Proof. intros (ps & c & cps & _ & _ & _ & ->)%is_wrapper_inv. by eexists. Qed.

Lemma config_of_intro s this o c cps :
  heap s !! this = Some o →
  props o !! "config" = Some (VObject c) →
  heap s !! c = Some (plain cps) →
  config_of s this = Some cps.
Proof. intros Ho Hc Hoc. unfold config_of. rewrite Ho. simpl. by rewrite Hc, Hoc. Qed.

Lemma lookup_union_override (p cfg : gmap string value) k :
  (p ∪ cfg) !! k = match p !! k with Some v => Some v | None => cfg !! k end.
Proof. rewrite lookup_union. by destruct (p !! k), (cfg !! k). Qed.

(** ** The constructor *)

(** X1: [new ResponseWrapper(config)] makes a fresh wrapper whose
    configuration has, for every property, the value [config] gives it when
    [config] has the property (even [undefined]) and the default
    otherwise. *)
Theorem constructor_merges_defaults s p o :
  heap s !! p = Some o →
  ∃ this s' cfg,
    new (VObject p) s = (Return this, s')
    ∧ heap s !! this = None
    ∧ is_wrapper s' this = true
    ∧ config_of s' this = Some cfg
    ∧ ∀ k, cfg !! k = match props o !! k with
                      | Some v => Some v
                      | None => defaults !! k
                      end.
Proof.
  intros Hp. rewrite (new_object_heap _ _ _ Hp).
  set (w := {| cls := ClsResponseWrapper; props := _ |}).
  destruct (lookup_app_two (heap s) w (plain (props o ∪ defaults))) as [Hw Hc].
  eexists _, _, (props o ∪ defaults). split; [reflexivity|].
  split; [by apply lookup_ge_None_2|].
  assert (Hwf : is_wrapper {| heap := heap s ++ [w; plain (props o ∪ defaults)];
                              trace := trace s |} (length (heap s)) = true).
  { eapply is_wrapper_intro; [exact Hw| |exact Hc]. apply lookup_singleton_eq. }
  split; [exact Hwf|].
  split; [|intros k; apply lookup_union_override].
  eapply (config_of_intro _ _ w); [exact Hw| |exact Hc].
  apply lookup_singleton_eq.
Qed.

Lemma constructor_merges_defaults_witness :
  ∃ this s' cfg,
    new (VObject 3) (with_literal {[ "includeErrorDetails" := VBool true ]} module_state)
    = (Return this, s')
    ∧ heap (with_literal {[ "includeErrorDetails" := VBool true ]} module_state) !! this
      = None
    ∧ is_wrapper s' this = true
    ∧ config_of s' this = Some cfg
    ∧ ∀ k, cfg !! k = match props (plain {[ "includeErrorDetails" := VBool true ]}) !! k with
                      | Some v => Some v
                      | None => defaults !! k
                      end.
Proof.
  apply (constructor_merges_defaults
           (with_literal {[ "includeErrorDetails" := VBool true ]} module_state) 3
           (plain {[ "includeErrorDetails" := VBool true ]})).
  reflexivity.
Defined.

(** X2: a wrapper made without an argument behaves as the README's table
    of defaults says, in any store: [success(d)] carries 'Operation
    completed successfully', [error()] carries 'An error occurred' and code
    500, and details are never attached, whatever details are passed. *)
Theorem constructor_default_behaviour s :
  ∃ this s',
    new VUndefined s = (Return this, s')
    ∧ is_wrapper s' this = true
    ∧ config_of s' this = Some defaults
    ∧ (∀ data, ∃ r s'',
          success this data VUndefined s' = (Return r, s'')
          ∧ is_success_envelope s'' r
              (VString "Operation completed successfully") data)
    ∧ (∀ details, ∃ r s'',
          error this VUndefined VUndefined details s' = (Return r, s'')
          ∧ is_error_envelope s'' r
              (VString "An error occurred") (VNumber 500) None).
Proof.
  rewrite new_default_heap.
  set (w := {| cls := ClsResponseWrapper; props := _ |}).
  set (s' := {| heap := heap s ++ [w; plain ∅; plain defaults]; trace := trace s |}).
  assert (Hw : heap s' !! length (heap s) = Some w).
  { simpl. by apply list_lookup_middle. }
  assert (Hc : heap s' !! S (S (length (heap s))) = Some (plain defaults)).
  { simpl. rewrite lookup_app_r by lia.
    by replace (S (S (length (heap s))) - length (heap s)) with 2 by lia. }
  assert (Hwf : is_wrapper s' (length (heap s)) = true).
  { eapply is_wrapper_intro; [exact Hw| |exact Hc]. apply lookup_singleton_eq. }
  assert (Hcfg : config_of s' (length (heap s)) = Some defaults).
  { eapply (config_of_intro _ _ w); [exact Hw| |exact Hc].
    apply lookup_singleton_eq. }
  exists (length (heap s)), s'. split; [reflexivity|].
  split; [done|]. split; [done|]. split.
  - intros data.
    destruct (success_envelope _ _ _ data VUndefined Hcfg) as (r & s'' & ? & ? & _).
    by exists r, s''.
  - intros details.
    destruct (error_envelope _ _ _ VUndefined VUndefined details Hcfg)
      as (r & s'' & ? & Henv & _).
    exists r, s''. split; [done|]. exact Henv.
Qed.

(** X3: the constructor copies its argument.  Whatever the caller later
    turns the object it passed into, the configuration of the wrapper stays
    the merge made at construction. *)
Theorem constructor_copies_argument s p o :
  heap s !! p = Some o →
  ∃ this s',
    new (VObject p) s = (Return this, s')
    ∧ config_of s' this = Some (props o ∪ defaults)
    ∧ ∀ o', config_of {| heap := <[p := o']> (heap s'); trace := trace s' |} this
            = Some (props o ∪ defaults).
Proof.
  intros Hp. rewrite (new_object_heap _ _ _ Hp).
  set (w := {| cls := ClsResponseWrapper; props := _ |}).
  pose proof (lookup_lt_Some _ _ _ Hp) as Hlt.
  assert (Hany : ∀ h, length h = length (heap s) →
            config_of {| heap := h ++ [w; plain (props o ∪ defaults)];
                         trace := trace s |} (length (heap s))
            = Some (props o ∪ defaults)).
  { intros h Hlen.
    destruct (lookup_app_two h w (plain (props o ∪ defaults))) as [Hw Hc].
    rewrite Hlen in Hw, Hc.
    eapply (config_of_intro _ _ w); [exact Hw| |exact Hc].
    apply lookup_singleton_eq. }
  eexists _, _. split; [reflexivity|]. split; [by apply Hany|].
  intros o'. simpl. rewrite insert_app_l by done.
  apply Hany. by rewrite length_insert.
Qed.

Lemma constructor_copies_argument_witness :
  ∃ this s',
    new (VObject 3) (with_a1 module_state) = (Return this, s')
    ∧ config_of s' this = Some (props (plain {[ "a" := VNumber 1 ]}) ∪ defaults)
    ∧ ∀ o', config_of {| heap := <[3 := o']> (heap s'); trace := trace s' |} this
            = Some (props (plain {[ "a" := VNumber 1 ]}) ∪ defaults).
Proof.
  apply (constructor_copies_argument (with_a1 module_state) 3
           (plain {[ "a" := VNumber 1 ]})).
  reflexivity.
Defined.

(** ** More on [configure] and [getConfig] *)

(** X4: [configure] copies its argument too: after [configure(partial)],
    changing the object that was passed does not change the
    configuration. *)
Theorem configure_copies_argument s this cfg p o :
  config_of s this = Some cfg →
  heap s !! p = Some o →
  p ≠ this →
  ∃ s', configure this (VObject p) s = (Return (), s')
        ∧ config_of s' this = Some (props o ∪ cfg)
        ∧ ∀ o', config_of {| heap := <[p := o']> (heap s'); trace := trace s' |} this
                = Some (props o ∪ cfg).
Proof.
  intros (w & c & oc & Hw & Hc & Hoc & <-)%config_of_inv Hp Hne.
  rewrite (configure_heap _ _ _ _ _ _ _ Hw Hc Hoc (own_props_object _ _ _ Hp)).
  set (w' := {| cls := cls w; props := _ |}).
  pose proof (lookup_lt_Some _ _ _ Hw) as Hltw.
  pose proof (lookup_lt_Some _ _ _ Hp) as Hltp.
  assert (Hany : ∀ h, length h = length (heap s) → h !! this = Some w' →
            config_of {| heap := h ++ [plain (props o ∪ props oc)];
                         trace := trace s |} this
            = Some (props o ∪ props oc)).
  { intros h Hlen Hw'.
    eapply (config_of_intro _ _ w' (length (heap s))).
    - simpl. by apply lookup_app_l_Some.
    - apply lookup_insert_eq.
    - simpl. by apply list_lookup_middle. }
  eexists. split; [reflexivity|]. split.
  - apply Hany; [by rewrite length_insert|by apply list_lookup_insert_eq].
  - intros o'. simpl. rewrite insert_app_l by (by rewrite length_insert).
    apply Hany; [by rewrite !length_insert|].
    rewrite list_lookup_insert_ne by done. by apply list_lookup_insert_eq.
Qed.

Lemma configure_copies_argument_witness :
  ∃ s', configure 0 (VObject 3) (with_a1 module_state) = (Return (), s')
        ∧ config_of s' 0 = Some (props (plain {[ "a" := VNumber 1 ]}) ∪ defaults)
        ∧ ∀ o', config_of {| heap := <[3 := o']> (heap s'); trace := trace s' |} 0
                = Some (props (plain {[ "a" := VNumber 1 ]}) ∪ defaults).
Proof.
  apply (configure_copies_argument (with_a1 module_state) 0 defaults 3
           (plain {[ "a" := VNumber 1 ]})); [reflexivity|reflexivity|discriminate].
Defined.

(** X5: two calls of [configure] compose: a property takes the value of
    the second argument if that has it, else of the first if that has it,
    else the value it had; calling [configure] twice with the same
    properties is the same as calling it once. *)
Theorem configure_twice s this cfg p1 o1 p2 o2 :
  config_of s this = Some cfg →
  heap s !! p1 = Some o1 →
  heap s !! p2 = Some o2 →
  p2 ≠ this →
  ∃ s' cfg',
    (configure this (VObject p1);; configure this (VObject p2)) s = (Return (), s')
    ∧ config_of s' this = Some cfg'
    ∧ (∀ k, cfg' !! k = match props o2 !! k with
                        | Some v => Some v
                        | None => match props o1 !! k with
                                  | Some v => Some v
                                  | None => cfg !! k
                                  end
                        end)
    ∧ (props o1 = props o2 → cfg' = props o1 ∪ cfg).
Proof.
  intros H Hp1 Hp2 Hne.
  pose proof H as (w & c & oc & Hw & Hc & Hoc & <-)%config_of_inv.
  destruct (configure_run s this _ (VObject p1) (props o1) H
              (own_props_object _ _ _ Hp1)) as (s1 & Hrun1 & Hcfg1 & _).
  assert (Hp2' : heap s1 !! p2 = Some o2).
  { rewrite (configure_heap _ _ _ _ _ _ _ Hw Hc Hoc (own_props_object _ _ _ Hp1))
      in Hrun1.
    injection Hrun1 as <-. simpl. apply lookup_app_l_Some.
    by rewrite list_lookup_insert_ne. }
  destruct (configure_run s1 this _ (VObject p2) (props o2) Hcfg1
              (own_props_object _ _ _ Hp2')) as (s2 & Hrun2 & Hcfg2 & _).
  exists s2, (props o2 ∪ (props o1 ∪ props oc)).
  split; [by rewrite (bind_Return _ _ _ _ _ Hrun1)|].
  split; [done|]. split.
  - intros k. by rewrite !lookup_union_override.
  - intros <-. by rewrite (assoc_L (∪)), (idemp_L (∪)).
Qed.

Lemma configure_twice_witness :
  ∃ s' cfg',
    (configure 0 (VObject 3);; configure 0 (VObject 4))
      (with_literal {[ "defaultErrorMessage" := VString "Y" ]}
         (with_literal {[ "defaultErrorMessage" := VString "X";
                          "includeErrorDetails" := VBool true ]} module_state))
    = (Return (), s')
    ∧ config_of s' 0 = Some cfg'
    ∧ (∀ k, cfg' !! k
            = match props (plain {[ "defaultErrorMessage" := VString "Y" ]}) !! k with
              | Some v => Some v
              | None =>
                  match props (plain {[ "defaultErrorMessage" := VString "X";
                                        "includeErrorDetails" := VBool true ]}) !! k with
                  | Some v => Some v
                  | None => defaults !! k
                  end
              end)
    ∧ (props (plain {[ "defaultErrorMessage" := VString "X";
                       "includeErrorDetails" := VBool true ]})
       = props (plain {[ "defaultErrorMessage" := VString "Y" ]}) →
       cfg' = props (plain {[ "defaultErrorMessage" := VString "X";
                              "includeErrorDetails" := VBool true ]}) ∪ defaults).
Proof.
  apply (configure_twice
           (with_literal {[ "defaultErrorMessage" := VString "Y" ]}
              (with_literal {[ "defaultErrorMessage" := VString "X";
                               "includeErrorDetails" := VBool true ]} module_state))
           0 defaults 3
           (plain {[ "defaultErrorMessage" := VString "X";
                     "includeErrorDetails" := VBool true ]})
           4 (plain {[ "defaultErrorMessage" := VString "Y" ]}));
    [reflexivity|reflexivity|reflexivity|discriminate].
Defined.

(** X6: what [configure] stores, [getConfig] reads back: after
    [configure(partial)], [getConfig()] returns a fresh object (neither the
    argument nor an object that existed) holding exactly the merged
    properties, so every property of [partial] is read back with the value
    given. *)
Theorem configure_then_getConfig s this cfg p o :
  config_of s this = Some cfg →
  heap s !! p = Some o →
  ∃ l s',
    (configure this (VObject p);; getConfig this) s = (Return (VObject l), s')
    ∧ heap s !! l = None
    ∧ heap s' !! l = Some (plain (props o ∪ cfg))
    ∧ ∀ k v, props o !! k = Some v → field_of s' (VObject l) k = Some v.
Proof.
  intros H Hp.
  destruct (configure_run s this _ (VObject p) (props o) H
              (own_props_object _ _ _ Hp)) as (s1 & Hrun1 & Hcfg1 & _).
  assert (Hlen : length (heap s1) = S (length (heap s))).
  { pose proof H as (w & c & oc & Hw & Hc & Hoc & <-)%config_of_inv.
    rewrite (configure_heap _ _ _ _ _ _ _ Hw Hc Hoc (own_props_object _ _ _ Hp))
      in Hrun1.
    injection Hrun1 as <-. simpl. rewrite length_app, length_insert. simpl. lia. }
  rewrite (bind_Return _ _ _ _ _ Hrun1), (getConfig_run _ _ _ Hcfg1).
  eexists _, _. split; [reflexivity|].
  split; [apply lookup_ge_None_2; lia|].
  assert (Hl : (heap s1 ++ [plain (props o ∪ cfg)]) !! length (heap s1)
               = Some (plain (props o ∪ cfg))) by (by apply list_lookup_middle).
  split; [exact Hl|].
  intros k v Hk.
  transitivity ((Some (plain (props o ∪ cfg)) : option object)
                  ≫= λ o', props o' !! k).
  { unfold field_of. f_equal. exact Hl. }
  simpl. by rewrite lookup_union_override, Hk.
Qed.

Lemma configure_then_getConfig_witness :
  ∃ l s',
    (configure 0 (VObject 3);; getConfig 0) (with_a1 module_state)
    = (Return (VObject l), s')
    ∧ heap (with_a1 module_state) !! l = None
    ∧ heap s' !! l = Some (plain (props (plain {[ "a" := VNumber 1 ]}) ∪ defaults))
    ∧ ∀ k v, props (plain {[ "a" := VNumber 1 ]}) !! k = Some v →
             field_of s' (VObject l) k = Some v.
Proof.
  apply (configure_then_getConfig (with_a1 module_state) 0 defaults 3
           (plain {[ "a" := VNumber 1 ]})); reflexivity.
Defined.

(** X7: feeding [getConfig()] back into [configure] changes nothing in the
    configuration: [configure(getConfig())] leaves every property as it
    was. *)
Theorem getConfig_then_configure s this cfg :
  config_of s this = Some cfg →
  ∃ s', (c ← getConfig this; configure this c) s = (Return (), s')
        ∧ config_of s' this = Some cfg
        ∧ trace s' = trace s.
Proof.
  intros H.
  rewrite (bind_Return _ _ _ _ _ (getConfig_run _ _ _ H)).
  set (s1 := {| heap := heap s ++ [plain cfg]; trace := trace s |}).
  assert (H1 : config_of s1 this = Some cfg).
  { destruct s. by eapply config_of_alloc. }
  destruct (configure_run s1 this cfg (VObject (length (heap s))) cfg H1)
    as (s' & Hrun & Hcfg & Htr); [apply own_props_fresh|].
  exists s'. split; [done|]. split; [|done].
  by rewrite (idemp_L (∪)) in Hcfg.
Qed.

Lemma getConfig_then_configure_witness :
  ∃ s', (c ← getConfig 0; configure 0 c) verbose_state = (Return (), s')
        ∧ config_of s' 0 = Some verbose_config
        ∧ trace s' = trace verbose_state.
Proof.
  apply (getConfig_then_configure verbose_state 0 verbose_config). reflexivity.
Defined.

(** X8: instances are independent.  [configure] on one wrapper leaves the
    configuration of every other wrapper as it was, and both stay
    well-formed wrappers; so a custom instance and the module's default
    instance do not influence each other. *)
Theorem configure_other_instance s this other p o :
  is_wrapper s this = true →
  is_wrapper s other = true →
  this ≠ other →
  heap s !! p = Some o →
  ∃ s', configure this (VObject p) s = (Return (), s')
        ∧ config_of s' other = config_of s other
        ∧ is_wrapper s' other = true
        ∧ is_wrapper s' this = true.
Proof.
  intros (ps & c & cps & Hw & Hc & Hoc & Hcfg)%is_wrapper_inv
         (ps' & c' & cps' & Hw' & Hc' & Hoc' & Hcfg')%is_wrapper_inv Hne Hp.
  rewrite (configure_heap _ _ _ _ _ _ _ Hw Hc Hoc (own_props_object _ _ _ Hp)).
  simpl cls. simpl props.
  set (w1 := {| cls := ClsResponseWrapper; props := _ |}).
  set (s' := {| heap := <[this := w1]> (heap s) ++ [_]; trace := trace s |}).
  pose proof (lookup_lt_Some _ _ _ Hw) as Hlt.
  assert (Hc'ne : c' ≠ this).
  { intros ->. rewrite Hw in Hoc'. discriminate. }
  assert (Hw1 : heap s' !! this = Some w1).
  { simpl. apply lookup_app_l_Some. by apply list_lookup_insert_eq. }
  assert (Hnew : heap s' !! length (heap s) = Some (plain (props o ∪ cps))).
  { simpl. apply list_lookup_middle. by rewrite length_insert. }
  assert (Hother : heap s' !! other
                   = Some {| cls := ClsResponseWrapper; props := ps' |}).
  { simpl. apply lookup_app_l_Some. by rewrite list_lookup_insert_ne. }
  assert (Hoc1 : heap s' !! c' = Some (plain cps')).
  { simpl. apply lookup_app_l_Some. by rewrite list_lookup_insert_ne. }
  exists s'. split; [reflexivity|]. split; [|split].
  - rewrite Hcfg'. by eapply config_of_intro.
  - by eapply is_wrapper_intro.
  - eapply is_wrapper_intro; [exact Hw1| |exact Hnew]. apply lookup_insert_eq.
Qed.

Lemma configure_other_instance_witness :
  ∃ s', configure 4 (VObject 3) two_instances = (Return (), s')
        ∧ config_of s' 0 = config_of two_instances 0
        ∧ is_wrapper s' 0 = true
        ∧ is_wrapper s' 4 = true.
Proof.
  apply (configure_other_instance two_instances 4 0 3
           (plain {[ "includeErrorDetails" := VBool true ]}));
    [reflexivity|reflexivity|discriminate|reflexivity].
Defined.

(** X9: the builders and [getConfig] only add to the store: [success] adds
    one object, [error] two, [getConfig] one; every object that existed
    (the configuration, the data, the details) is left exactly as it was,
    and the framework is not called. *)
Theorem builders_extend_store s this cfg data message code details :
  config_of s this = Some cfg →
  (∃ r s', success this data message s = (Return r, s') ∧ extends_store 1 s s')
  ∧ (∃ r s', error this message code details s = (Return r, s')
             ∧ extends_store 2 s s')
  ∧ (∃ r s', getConfig this s = (Return r, s') ∧ extends_store 1 s s').
Proof.
  assert (Hext : ∀ more, extends_store (length more) s
                           {| heap := heap s ++ more; trace := trace s |}).
  { intros more. split; [simpl; by rewrite length_app|]. split; [|done].
    intros l o Hl. simpl. by apply lookup_app_l_Some. }
  intros H. split; [|split].
  - rewrite (success_run _ _ _ _ _ H). eexists _, _. split; [reflexivity|].
    apply (Hext [_]).
  - rewrite (error_run _ _ _ _ _ _ H). eexists _, _. split; [reflexivity|].
    apply (Hext [_; _]).
  - rewrite (getConfig_run _ _ _ H). eexists _, _. split; [reflexivity|].
    apply (Hext [_]).
Qed.

Lemma builders_extend_store_witness :
  (∃ r s', success 0 VNull VUndefined module_state = (Return r, s')
           ∧ extends_store 1 module_state s')
  ∧ (∃ r s', error 0 VUndefined VUndefined VNull module_state = (Return r, s')
             ∧ extends_store 2 module_state s')
  ∧ (∃ r s', getConfig 0 module_state = (Return r, s')
             ∧ extends_store 1 module_state s').
Proof.
  apply (builders_extend_store module_state 0 defaults). reflexivity.
Defined.

(** ** The types of [types.ts] *)

Lemma typed_union p cfg :
  typed_partial p = true → typed_config cfg = true →
  typed_config (p ∪ cfg) = true.
Proof.
  unfold typed_partial, typed_config, field.
  rewrite !lookup_union_override.
  intros [[H1 H2]%andb_true_iff H3]%andb_true_iff
         [[G1 G2]%andb_true_iff G3]%andb_true_iff.
  destruct (p !! "defaultSuccessMessage"), (p !! "defaultErrorMessage"),
    (p !! "includeErrorDetails"); simpl in *;
    by rewrite ?H1, ?H2, ?H3, ?G1, ?G2, ?G3.
Qed.

(** X10: the constructor makes a well-typed configuration.  When its
    argument gives each of the three properties either no value or one of
    its declared type, the default messages of the new wrapper are strings
    and its [includeErrorDetails] is a boolean. *)
Theorem constructor_typed_config s p o :
  heap s !! p = Some o →
  typed_partial (props o) = true →
  ∃ this s' cfg, new (VObject p) s = (Return this, s')
                 ∧ config_of s' this = Some cfg
                 ∧ typed_config cfg = true.
Proof.
  intros Hp Ht.
  destruct (new_run_object _ _ _ Hp) as (s' & Hrun & Hcfg & _).
  exists (length (heap s)), s', (props o ∪ defaults).
  split; [done|]. split; [done|]. by apply typed_union.
Qed.

Lemma constructor_typed_config_witness :
  ∃ this s' cfg,
    new (VObject 3) (with_literal {[ "defaultErrorMessage" := VString "Y" ]} module_state)
    = (Return this, s')
    ∧ config_of s' this = Some cfg
    ∧ typed_config cfg = true.
Proof.
  apply (constructor_typed_config
           (with_literal {[ "defaultErrorMessage" := VString "Y" ]} module_state) 3
           (plain {[ "defaultErrorMessage" := VString "Y" ]})); reflexivity.
Defined.

(** X11: [configure] keeps the configuration well typed, under the same
    condition on its argument. *)
Theorem configure_keeps_typed_config s this cfg p o :
  config_of s this = Some cfg →
  typed_config cfg = true →
  heap s !! p = Some o →
  typed_partial (props o) = true →
  ∃ s' cfg', configure this (VObject p) s = (Return (), s')
             ∧ config_of s' this = Some cfg'
             ∧ typed_config cfg' = true.
Proof.
  intros H Hcfg Hp Ht.
  destruct (configure_run s this cfg (VObject p) (props o) H
              (own_props_object _ _ _ Hp)) as (s' & Hrun & Hcfg' & _).
  exists s', (props o ∪ cfg). split; [done|]. split; [done|].
  by apply typed_union.
Qed.

Lemma configure_keeps_typed_config_witness :
  ∃ s' cfg',
    configure 0 (VObject 3)
      (with_literal {[ "defaultErrorMessage" := VString "Y" ]} module_state)
    = (Return (), s')
    ∧ config_of s' 0 = Some cfg'
    ∧ typed_config cfg' = true.
Proof.
  apply (configure_keeps_typed_config
           (with_literal {[ "defaultErrorMessage" := VString "Y" ]} module_state)
           0 defaults 3 (plain {[ "defaultErrorMessage" := VString "Y" ]}));
    reflexivity.
Defined.

(** X12: with a well-typed configuration and arguments of the declared
    types ([message?: string], [code?: number]), the results have the
    shapes [SuccessResponse] and [ErrorResponse] declare: the message is a
    string and the error code a number. *)
Theorem typed_envelopes s this cfg data message code details :
  config_of s this = Some cfg →
  typed_config cfg = true →
  is_optional is_string message = true →
  is_optional is_number code = true →
  (∃ r s' m, success this data message s = (Return r, s')
             ∧ is_success_envelope s' r (VString m) data)
  ∧ (∃ r s' m n d, error this message code details s = (Return r, s')
                   ∧ is_error_envelope s' r (VString m) (VNumber n) d).
Proof.
  unfold typed_config.
  intros H [[G1 G2]%andb_true_iff _]%andb_true_iff Hm Hc. split.
  - destruct (success_envelope _ _ _ data message H) as (r & s' & Hrun & Henv & _).
    destruct message; try discriminate; simpl in Henv.
    + destruct (field cfg "defaultSuccessMessage"); try discriminate.
      by eexists _, _, _.
    + destruct (negb (String.eqb s0 ""));
        [|destruct (field cfg "defaultSuccessMessage"); try discriminate];
        by eexists _, _, _.
  - destruct (error_envelope _ _ _ message code details H)
      as (r & s' & Hrun & Henv & _).
    assert (∃ n, default_param (VNumber 500) code = VNumber n) as [n Hn].
    { destruct code; try discriminate; by eexists. }
    rewrite Hn in Henv.
    destruct message; try discriminate; simpl in Henv.
    + destruct (field cfg "defaultErrorMessage"); try discriminate.
      by eexists _, _, _, _, _.
    + destruct (negb (String.eqb s0 ""));
        [|destruct (field cfg "defaultErrorMessage"); try discriminate];
        by eexists _, _, _, _, _.
Qed.

Lemma typed_envelopes_witness :
  (∃ r s' m, success 0 VNull (VString "") verbose_state = (Return r, s')
             ∧ is_success_envelope s' r (VString m) VNull)
  ∧ (∃ r s' m n d, error 0 (VString "") VUndefined (VBool true) verbose_state
                   = (Return r, s')
                   ∧ is_error_envelope s' r (VString m) (VNumber n) d).
Proof.
  apply (typed_envelopes verbose_state 0 verbose_config); reflexivity.
Defined.

(** X13: a property given explicitly overrides the stored value whatever
    it is, [undefined] included: after [configure(partial)] with
    [partial.defaultSuccessMessage = v], [success(d)] without a message
    returns an envelope whose message is [v].  With [v = undefined] the
    message is [undefined], not a string. *)
Theorem configure_explicit_value_wins s this cfg p o v data :
  config_of s this = Some cfg →
  heap s !! p = Some o →
  props o !! "defaultSuccessMessage" = Some v →
  ∃ r s', (configure this (VObject p);; success this data VUndefined) s
          = (Return r, s')
          ∧ is_success_envelope s' r v data.
Proof.
  intros H Hp Hv.
  destruct (configure_run s this cfg (VObject p) (props o) H
              (own_props_object _ _ _ Hp)) as (s1 & Hrun & Hcfg & _).
  rewrite (bind_Return _ _ _ _ _ Hrun).
  destruct (success_envelope _ _ _ data VUndefined Hcfg) as (r & s' & Hs & Henv & _).
  exists r, s'. split; [done|].
  simpl in Henv. unfold field in Henv.
  by rewrite lookup_union_override, Hv in Henv.
Qed.

Lemma configure_explicit_value_wins_witness :
  ∃ r s', (configure 0 (VObject 3);; success 0 (VNumber 1) VUndefined)
            (with_literal {[ "defaultSuccessMessage" := VUndefined ]} module_state)
          = (Return r, s')
          ∧ is_success_envelope s' r VUndefined (VNumber 1).
Proof.
  apply (configure_explicit_value_wins
           (with_literal {[ "defaultSuccessMessage" := VUndefined ]} module_state)
           0 defaults 3 (plain {[ "defaultSuccessMessage" := VUndefined ]}));
    reflexivity.
Defined.

(** ** More on the Express adapter *)

Lemma envelope_heap_only s t :
  (∀ r m d, is_success_envelope {| heap := heap s; trace := t |} r m d
            ↔ is_success_envelope s r m d)
  ∧ (∀ r m c d, is_error_envelope {| heap := heap s; trace := t |} r m c d
                ↔ is_error_envelope s r m c d).
Proof. by destruct s. Qed.

Lemma config_of_heap_only s t this :
  config_of {| heap := heap s; trace := t |} this = config_of s this.
Proof. by destruct s. Qed.

(** X14: [res.apiSuccess(data, message)] builds the envelope with
    [success] and makes exactly one framework call, [res.json(envelope)];
    it never sets a status. *)
Theorem express_apiSuccess_sends s this cfg res data message :
  config_of s this = Some cfg →
  ∃ body s',
    express_apiSuccess this res data message s = (Return VUndefined, s')
    ∧ is_success_envelope s' body
        (if truthy message then message else field cfg "defaultSuccessMessage")
        data
    ∧ trace s' = trace s ++ [CallMethod res "json" [body]].
Proof.
  intros H.
  destruct (success_envelope _ _ _ data message H) as (body & s1 & Hrun & Henv & Htr).
  exists body, {| heap := heap s1;
                  trace := trace s1 ++ [CallMethod res "json" [body]] |}.
  split; [|split].
  - unfold express_apiSuccess. by rewrite (bind_Return _ _ _ _ _ Hrun).
  - by apply envelope_heap_only.
  - simpl. by rewrite Htr.
Qed.

Lemma express_apiSuccess_sends_witness :
  ∃ body s',
    express_apiSuccess 0 (VObject 3) (VNumber 1) (VString "done") express_state
    = (Return VUndefined, s')
    ∧ is_success_envelope s' body
        (if truthy (VString "done") then VString "done"
         else field defaults "defaultSuccessMessage")
        (VNumber 1)
    ∧ trace s' = trace express_state ++ [CallMethod (VObject 3) "json" [body]].
Proof.
  apply (express_apiSuccess_sends express_state 0 defaults). reflexivity.
Defined.



(** X16: the middleware adds [apiSuccess] and [apiError] to [res], keeps
    every other property of [res], touches no other object, and calls
    [next] exactly once, without arguments; afterwards [res.apiSuccess(..)]
    and [res.apiError(..)] run the two functions bound to this wrapper and
    this [res]. *)
Theorem middleware_installs_methods s this req res o next :
  heap s !! res = Some o →
  ∃ s', middleware_body this req (VObject res) (VFunction (Host next)) s
        = (Return VUndefined, s')
        ∧ heap s'
          = <[res := {| cls := cls o;
                        props := <["apiError" := VFunction (ExpressApiError this (VObject res))]>
                                   (<["apiSuccess" := VFunction (ExpressApiSuccess this (VObject res))]>
                                      (props o)) |}]> (heap s)
        ∧ trace s' = trace s ++ [CallFunction next []]
        ∧ (∀ args, call_method (VObject res) "apiSuccess" args s'
                   = express_apiSuccess this (VObject res) (arg 0 args) (arg 1 args) s')
        ∧ (∀ args, call_method (VObject res) "apiError" args s'
                   = express_apiError this (VObject res)
                       (arg 0 args) (arg 1 args) (arg 2 args) s').
Proof.
  intros Ho. unfold middleware_body.
  rewrite (bind_Return _ _ _ _ _ (set_prop_object _ _ _ _ _ Ho)).
  set (s1 := {| heap := <[res := _]> (heap s); trace := trace s |}).
  pose proof (lookup_lt_Some _ _ _ Ho) as Hlt.
  assert (H1 : heap s1 !! res = Some {| cls := cls o;
             props := <["apiSuccess" := VFunction (ExpressApiSuccess this (VObject res))]>
                        (props o) |}).
  { simpl. by apply list_lookup_insert_eq. }
  rewrite (bind_Return _ _ _ _ _ (set_prop_object _ _ _ _ _ H1)).
  rewrite !bind_run. simpl.
  eexists. split; [reflexivity|]. simpl.
  split; [by rewrite list_insert_insert_eq|]. split; [done|].
  split; intros args; unfold call_method;
    (erewrite bind_Return; last first;
     [apply get_prop_object; simpl; apply list_lookup_insert_eq;
      by rewrite length_insert|]);
    unfold field; simpl.
  - by rewrite lookup_insert_ne, lookup_insert_eq.
  - by rewrite lookup_insert_eq.
Qed.

Lemma middleware_installs_methods_witness :
  ∃ s', middleware_body 0 VUndefined (VObject 3) (VFunction (Host "next"))
          (with_a1 module_state)
        = (Return VUndefined, s')
        ∧ heap s'
          = <[3 := {| cls := cls (plain {[ "a" := VNumber 1 ]});
                      props := <["apiError" := VFunction (ExpressApiError 0 (VObject 3))]>
                                 (<["apiSuccess" := VFunction (ExpressApiSuccess 0 (VObject 3))]>
                                    (props (plain {[ "a" := VNumber 1 ]}))) |}]>
              (heap (with_a1 module_state))
        ∧ trace s' = trace (with_a1 module_state) ++ [CallFunction "next" []]
        ∧ (∀ args, call_method (VObject 3) "apiSuccess" args s'
                   = express_apiSuccess 0 (VObject 3) (arg 0 args) (arg 1 args) s')
        ∧ (∀ args, call_method (VObject 3) "apiError" args s'
                   = express_apiError 0 (VObject 3)
                       (arg 0 args) (arg 1 args) (arg 2 args) s').
Proof.
  apply (middleware_installs_methods (with_a1 module_state) 0 VUndefined 3
           (plain {[ "a" := VNumber 1 ]}) "next").
  reflexivity.
Defined.

(** X17: the middleware on arguments that are not what Express passes.
    With [res] [undefined] or [null] the first assignment throws a
    [TypeError]: nothing is stored and [next] is not called.  With [res] an
    object and [next] [undefined] or [null], both methods are installed
    first and the call [next()] then throws. *)
Theorem middleware_bad_arguments s this req res o next :
  heap s !! res = Some o →
  next = VUndefined ∨ next = VNull →
  (∀ next', middleware_body this req VUndefined next' s
            = (Throw (TypeError "Cannot set properties of undefined"), s))
  ∧ (∀ next', middleware_body this req VNull next' s
              = (Throw (TypeError "Cannot set properties of undefined"), s))
  ∧ ∃ s', middleware_body this req (VObject res) next s
          = (Throw (TypeError "is not a function"), s')
          ∧ field_of s' (VObject res) "apiSuccess"
            = Some (VFunction (ExpressApiSuccess this (VObject res)))
          ∧ field_of s' (VObject res) "apiError"
            = Some (VFunction (ExpressApiError this (VObject res)))
          ∧ trace s' = trace s.
Proof.
  intros Ho Hnext. split; [done|]. split; [done|].
  unfold middleware_body.
  rewrite (bind_Return _ _ _ _ _ (set_prop_object _ _ _ _ _ Ho)).
  set (s1 := {| heap := <[res := _]> (heap s); trace := trace s |}).
  pose proof (lookup_lt_Some _ _ _ Ho) as Hlt.
  assert (H1 : heap s1 !! res = Some {| cls := cls o;
             props := <["apiSuccess" := VFunction (ExpressApiSuccess this (VObject res))]>
                        (props o) |}).
  { simpl. by apply list_lookup_insert_eq. }
  rewrite (bind_Return _ _ _ _ _ (set_prop_object _ _ _ _ _ H1)).
  rewrite !bind_run.
  eexists. split; [by destruct Hnext as [-> | ->]|].
  unfold field_of. simpl.
  rewrite list_lookup_insert_eq by (by rewrite length_insert). simpl.
  by rewrite lookup_insert_ne, !lookup_insert_eq.
Qed.

Lemma middleware_bad_arguments_witness :
  (∀ next', middleware_body 0 VNull VUndefined next' (with_a1 module_state)
            = (Throw (TypeError "Cannot set properties of undefined"),
               with_a1 module_state))
  ∧ (∀ next', middleware_body 0 VNull VNull next' (with_a1 module_state)
              = (Throw (TypeError "Cannot set properties of undefined"),
                 with_a1 module_state))
  ∧ ∃ s', middleware_body 0 VNull (VObject 3) VUndefined (with_a1 module_state)
          = (Throw (TypeError "is not a function"), s')
          ∧ field_of s' (VObject 3) "apiSuccess"
            = Some (VFunction (ExpressApiSuccess 0 (VObject 3)))
          ∧ field_of s' (VObject 3) "apiError"
            = Some (VFunction (ExpressApiError 0 (VObject 3)))
          ∧ trace s' = trace (with_a1 module_state).
Proof.
  apply (middleware_bad_arguments (with_a1 module_state) 0 VNull 3
           (plain {[ "a" := VNumber 1 ]}) VUndefined); [reflexivity|by left].
Defined.



(** ** More on the Fastify adapter *)

Lemma decorateFastify_heap s this fastify so rp :
  heap s !! Fastify.server fastify = Some so →
  heap s !! Fastify.reply_prototype fastify = Some rp →
  Fastify.server fastify ≠ Fastify.reply_prototype fastify →
  decorateFastify this fastify s
  = (Return (),
     {| heap :=
          <[Fastify.server fastify :=
              {| cls := cls so;
                 props := <["responseWrapper" := VObject this]> (props so) |}]>
            (<[Fastify.reply_prototype fastify :=
                 {| cls := cls rp;
                    props := <["apiError" := VFunction FastifyApiError]>
                               (<["apiSuccess" := VFunction FastifyApiSuccess]>
                                  (props rp)) |}]> (heap s));
        trace := trace s |}).
Proof.
  intros Hso Hrp Hne. unfold decorateFastify, Fastify.decorateReply, Fastify.decorate.
  pose proof (lookup_lt_Some _ _ _ Hrp) as Hlt.
  rewrite (bind_Return _ _ _ _ _ (set_prop_object _ _ _ _ _ Hrp)).
  set (s1 := {| heap := <[_ := _]> (heap s); trace := trace s |}).
  assert (H1 : heap s1 !! Fastify.reply_prototype fastify
               = Some {| cls := cls rp;
                         props := <["apiSuccess" := VFunction FastifyApiSuccess]>
                                    (props rp) |}).
  { simpl. by apply list_lookup_insert_eq. }
  rewrite (bind_Return _ _ _ _ _ (set_prop_object _ _ _ _ _ H1)).
  set (s2 := {| heap := <[_ := _]> (heap s1); trace := trace s1 |}).
  assert (H2 : heap s2 !! Fastify.server fastify = Some so).
  { simpl. by rewrite !list_lookup_insert_ne. }
  rewrite (set_prop_object _ _ _ _ _ H2). simpl.
  by rewrite list_insert_insert_eq.
Qed.



Lemma fastify_reply_method_throws s this fastify so rp args name :
  heap s !! Fastify.server fastify = Some so →
  heap s !! Fastify.reply_prototype fastify = Some rp →
  Fastify.server fastify ≠ Fastify.reply_prototype fastify →
  props rp !! "responseWrapper" = None →
  name = "apiError" ∨ name = "apiSuccess" →
  ∃ s', (decorateFastify this fastify;;
         reply ← Fastify.new_reply fastify;
         call_method reply name args) s
        = (Throw (TypeError "Cannot read properties of undefined"), s')
        ∧ trace s' = trace s.
Proof.
  intros Hso Hrp Hne Hnone Hname.
  rewrite (bind_Return _ _ _ _ _ (decorateFastify_heap _ _ _ _ _ Hso Hrp Hne)).
  pose proof (lookup_lt_Some _ _ _ Hrp) as Hlt.
  pose proof (lookup_lt_Some _ _ _ Hso) as Hlt'.
  set (rp' := {| cls := cls rp; props := _ |}).
  set (s1 := {| heap := _; trace := trace s |}).
  assert (H1 : heap s1 !! Fastify.reply_prototype fastify = Some rp').
  { simpl. rewrite list_lookup_insert_ne by done. by apply list_lookup_insert_eq. }
  unfold Fastify.new_reply.
  rewrite bind_run, (bind_Return _ _ _ _ _ (own_props_object _ _ _ H1)).
  rewrite !bind_run. simpl.
  set (s2 := {| heap := heap s1 ++ [plain (props rp')]; trace := trace s |}).
  assert (H2 : heap s2 !! length (heap s1) = Some (plain (props rp'))).
  { simpl. by apply list_lookup_middle. }
  unfold call_method.
  rewrite (bind_Return _ _ _ _ _ (get_prop_object _ _ _ name H2)).
  assert (Hw : props (plain (props rp')) !! "responseWrapper" = None).
  { simpl. by rewrite !lookup_insert_ne. }
  exists s2. split; [|done].
  destruct Hname as [-> | ->]; unfold field; simpl.
  - rewrite lookup_insert_eq. simpl.
    by apply (fastify_apiError_without_wrapper _ _ _ _ _ _ H2 Hw).
  - rewrite lookup_insert_ne, lookup_insert_eq by done. simpl.
    unfold fastify_apiSuccess.
    rewrite (bind_Return _ _ _ _ _ (get_prop_object _ _ _ "responseWrapper" H2)).
    unfold field. by rewrite Hw.
Qed.




